(** * CannonWarfare2: the cannonball projectile (Sources/CannonBall.cpp)

    A shallow embedding of [CannonBall]: its constructor, [ComputeDrag],
    [UpdateTrajectory], [Update], [Draw], [DrawTrajectory] and [Destroy].
    The C++ [float] is kept abstract behind the [Scalar] interface.  The
    program runs on IEEE binary32 numbers: what is stated about the program
    is proved for every [Scalar] or for the binary32 instance.  The
    instance on the real numbers is an idealisation, exact arithmetic
    without rounding; what is proved there says what the formulas of the
    code compute when rounding is ignored, and is labelled so. *)

From Stdlib Require Import ZArith List Bool Reals Lra Lia.
From Stdlib Require Import Floats.SpecFloat.
From Stdlib Require Strings.String.
Import ListNotations.

(** ** The [float] interface *)

(** The operations [CannonBall.cpp] performs on [float] values.  [s_of_Z] is
    the int-to-float conversion, [s_to_int] the float-to-int truncation
    (toward zero).  The only law the control flow relies on is that [<] is
    asymmetric, which holds for IEEE numbers, NaN included. *)
Class Scalar (T : Type) : Type := {
  s_of_Z   : Z -> T;
  s_add    : T -> T -> T;
  s_sub    : T -> T -> T;
  s_mul    : T -> T -> T;
  s_div    : T -> T -> T;
  s_sqrt   : T -> T;
  s_ltb    : T -> T -> bool;
  s_leb    : T -> T -> bool;
  s_to_int : T -> Z;
  s_PI     : T;
  s_ltb_asym : forall x y, s_ltb x y = true -> s_ltb y x = false
}.

Declare Scope scalar_scope.
Delimit Scope scalar_scope with S.
Infix "+" := s_add : scalar_scope.
Infix "-" := s_sub : scalar_scope.
Infix "*" := s_mul : scalar_scope.
Infix "/" := s_div : scalar_scope.
Infix "<?" := s_ltb : scalar_scope.
Infix "<=?" := s_leb : scalar_scope.
Notation "x >? y" := (s_ltb y x) (only parsing) : scalar_scope.

Section Model.

Context {T : Type} {ST : Scalar T}.
Local Open Scope scalar_scope.

(** An integer literal used where a [float] is expected. *)
Definition lit (n : Z) : T := s_of_Z n.

(** A decimal literal such as [0.01f], written as the fraction [n/d]: the
    correctly rounded quotient of two exactly representable integers. *)
Definition dec (n d : Z) : T := s_of_Z n / s_of_Z d.

(** Unary minus, [-x]. *)
Definition s_opp (x : T) : T := lit (-1) * x.

(** ** Maths::Vector2 and Maths::Transform *)

Record Vector2 : Type := mkVector2 { x : T; y : T }.

Definition Vzero : Vector2 := mkVector2 (lit 0) (lit 0).

Definition Vadd (a b : Vector2) : Vector2 :=
  mkVector2 (x a + x b) (y a + y b).

(** [v * k] for a scalar [k]. *)
Definition Vscale (v : Vector2) (k : T) : Vector2 :=
  mkVector2 (x v * k) (y v * k).

(** [-v]. *)
Definition Vneg (v : Vector2) : Vector2 :=
  mkVector2 (s_opp (x v)) (s_opp (y v)).

(** Modelled from the spec: [Vector2::GetLength] belongs to the Maths
    library, which is not part of Sources/CannonBall.cpp; the spec calls it
    the vector's magnitude. *)
Definition GetLength (v : Vector2) : T :=
  s_sqrt (x v * x v + y v * y v).

(** Modelled from the spec: [Vector2::SetLength] is the magnitude setter
    that "rescales preserving direction": the normalised vector times the
    requested length. *)
Definition SetLength (v : Vector2) (len : T) : Vector2 :=
  mkVector2 (x v / GetLength v * len) (y v / GetLength v * len).

Definition set_y (v : Vector2) (ny : T) : Vector2 := mkVector2 (x v) ny.

Definition Vsub (a b : Vector2) : Vector2 :=
  mkVector2 (x a - x b) (y a - y b).

(** The 2D cross product [a.x * b.y - a.y * b.x]. *)
Definition Vcross (a b : Vector2) : T := x a * y b - y a * x b.

(** Modelled from the spec: [LineIntersection] of the Maths library, "given
    two points and two direction vectors, return the point where the two
    infinite rays intersect"; parallel rays are not special-cased.  Used
    only where a concrete run needs a value for the control point. *)
Definition lineIntersection (p1 d1 p2 d2 : Vector2) : Vector2 :=
  Vadd p1 (Vscale d1 (Vcross (Vsub p2 p1) d2 / Vcross d1 d2)).

Record Transform : Type := mkTransform {
  position       : Vector2;
  velocity       : Vector2;
  acceleration   : Vector2;
  rotateForwards : bool
}.

Definition set_position (t : Transform) (p : Vector2) : Transform :=
  mkTransform p (velocity t) (acceleration t) (rotateForwards t).
Definition set_velocity (t : Transform) (v : Vector2) : Transform :=
  mkTransform (position t) v (acceleration t) (rotateForwards t).
Definition set_acceleration (t : Transform) (a : Vector2) : Transform :=
  mkTransform (position t) (velocity t) a (rotateForwards t).

(** Modelled from the spec: [Transform::Update] belongs to the Maths
    library; the spec describes it as the semi-implicit Euler step
    "velocity += acceleration*dt; position += velocity*dt". *)
Definition Transform_Update (dt : T) (t : Transform) : Transform :=
  let v := Vadd (velocity t) (Vscale (acceleration t) dt) in
  let p := Vadd (position t) (Vscale v dt) in
  mkTransform p v (acceleration t) (rotateForwards t).

(** Modelled from the spec: [sqpow] of Arithmetic.h, the square. *)
Definition sqpow (v : T) : T := v * v.

(** Modelled from the spec: [clamp] of Arithmetic.h, "clamped to [0,1]". *)
Definition clamp (v lo hi : T) : T :=
  if v <? lo then lo else if v >? hi then hi else v.

(** ** Colours and particle spawner requests *)

(** raylib's [Color]: four [unsigned char] channels. *)
Record Color : Type := mkColor { r : Z; g : Z; b : Z; a : Z }.

Definition ORANGE : Color := mkColor 255 161 0 255.
Definition WHITE  : Color := mkColor 255 255 255 255.

Definition set_a (c : Color) (na : Z) : Color := mkColor (r c) (g c) (b c) na.

(** The [(unsigned char)] conversion of a [float]: the value is truncated
    toward zero; a truncated value outside 0..255 is not representable (the
    C++ standard leaves that conversion undefined), and the model keeps the
    low eight bits, which is what the x86-64 code of the program does. *)
Definition to_uchar (v : T) : Z := (s_to_int v) mod 256.

(** [ParticleShapes]: the source uses [POLYGON] only; [SHAPE_OTHER] stands
    for the remaining enumerators of ParticleManager.h. *)
Inductive ParticleShapes : Type := POLYGON | SHAPE_OTHER.

(** [SpawnerParticleParams], in the order of its aggregate initialiser:
    shape, origin, angular range, speed range, two reserved range pairs,
    size range, lifetime range, colour. *)
Record SpawnerParticleParams : Type := mkParams {
  shape       : ParticleShapes;
  origin      : Vector2;
  angleMin    : T;  angleMax    : T;
  speedMin    : T;  speedMax    : T;
  reserved1Min : T; reserved1Max : T;
  reserved2Min : T; reserved2Max : T;
  sizeMin     : T;  sizeMax     : T;
  lifetimeMin : T;  lifetimeMax : T;
  pcolor      : Color
}.

(** One call [particleManager.CreateSpawner(count, duration, params, attach)];
    [attached] tells whether a transform pointer was passed. *)
Record SpawnerRequest : Type := mkRequest {
  count    : Z;
  duration : T;
  params   : SpawnerParticleParams;
  attached : bool
}.

(** ** The cannonball *)

Record CannonBall : Type := mkCannonBall {
  transform       : Transform;
  radius          : T;
  elasticity      : T;
  groundHeight    : T;
  landed          : bool;
  startPos        : Vector2;
  startV          : Vector2;
  endPos          : Vector2;
  endV            : Vector2;
  controlPoint    : Vector2;
  startTime       : Z;
  endTime         : Z;
  airTime         : T;
  showTrajectory  : bool;
  trajectoryAlpha : T;
  destroyTimer    : T;
  destroyDuration : T;
  color           : Color
}.

Definition set_transform (c : CannonBall) (t : Transform) : CannonBall :=
  mkCannonBall t (radius c) (elasticity c) (groundHeight c) (landed c)
    (startPos c) (startV c) (endPos c) (endV c) (controlPoint c)
    (startTime c) (endTime c) (airTime c) (showTrajectory c)
    (trajectoryAlpha c) (destroyTimer c) (destroyDuration c) (color c).

Definition set_landed (c : CannonBall) (l : bool) : CannonBall :=
  mkCannonBall (transform c) (radius c) (elasticity c) (groundHeight c) l
    (startPos c) (startV c) (endPos c) (endV c) (controlPoint c)
    (startTime c) (endTime c) (airTime c) (showTrajectory c)
    (trajectoryAlpha c) (destroyTimer c) (destroyDuration c) (color c).

Definition set_trajectory (c : CannonBall) (et : Z) (at_ : T)
    (ep ev cp : Vector2) : CannonBall :=
  mkCannonBall (transform c) (radius c) (elasticity c) (groundHeight c)
    (landed c) (startPos c) (startV c) ep ev cp
    (startTime c) et at_ (showTrajectory c)
    (trajectoryAlpha c) (destroyTimer c) (destroyDuration c) (color c).

Definition set_showTrajectory (c : CannonBall) (s : bool) : CannonBall :=
  mkCannonBall (transform c) (radius c) (elasticity c) (groundHeight c)
    (landed c) (startPos c) (startV c) (endPos c) (endV c) (controlPoint c)
    (startTime c) (endTime c) (airTime c) s
    (trajectoryAlpha c) (destroyTimer c) (destroyDuration c) (color c).

Definition set_trajectoryAlpha (c : CannonBall) (al : T) : CannonBall :=
  mkCannonBall (transform c) (radius c) (elasticity c) (groundHeight c)
    (landed c) (startPos c) (startV c) (endPos c) (endV c) (controlPoint c)
    (startTime c) (endTime c) (airTime c) (showTrajectory c)
    al (destroyTimer c) (destroyDuration c) (color c).

Definition set_destroyTimer (c : CannonBall) (d : T) : CannonBall :=
  mkCannonBall (transform c) (radius c) (elasticity c) (groundHeight c)
    (landed c) (startPos c) (startV c) (endPos c) (endV c) (controlPoint c)
    (startTime c) (endTime c) (airTime c) (showTrajectory c)
    (trajectoryAlpha c) d (destroyDuration c) (color c).

Definition set_color (c : CannonBall) (col : Color) : CannonBall :=
  mkCannonBall (transform c) (radius c) (elasticity c) (groundHeight c)
    (landed c) (startPos c) (startV c) (endPos c) (endV c) (controlPoint c)
    (startTime c) (endTime c) (airTime c) (showTrajectory c)
    (trajectoryAlpha c) (destroyTimer c) (destroyDuration c) col.

(** The members whose initial value comes from an in-class initialiser of
    CannonBall.h rather than from the constructor body. *)
Record HeaderDefaults : Type := mkDefaults {
  d_radius          : T;
  d_elasticity      : T;
  d_endPos          : Vector2;
  d_endV            : Vector2;
  d_controlPoint    : Vector2;
  d_endTime         : Z;
  d_airTime         : T;
  d_showTrajectory  : bool;
  d_trajectoryAlpha : T;
  d_destroyTimer    : T;
  d_destroyDuration : T;
  d_color           : Color
}.

(** The constants of PhysicsConstants.h and the two helpers whose bodies the
    claims never look into: the line intersection of the Maths library and
    the number of [system_clock] ticks in a millisecond. *)
Variable GRAVITY PIXEL_SCALE AIR_DENSITY SPHERE_DRAG_COEFF : T.
Variable LineIntersection : Vector2 -> Vector2 -> Vector2 -> Vector2 -> Vector2.
Variable TICKS_PER_MS : Z.

(** The muzzle-smoke request of the constructor. *)
Definition smokeParams (t : Transform) : SpawnerParticleParams :=
  mkParams POLYGON (position t)
    (s_opp s_PI) (lit 0)
    (lit 5) (lit 20)
    (lit 0) (lit 0)
    (lit 0) (lit 0)
    (lit 20) (lit 35)
    (dec 5 100) (dec 2 10)
    ORANGE.

(** [CannonBall::CannonBall].  [now] is the reading of
    [std::chrono::system_clock::now()].
    Modelled from the spec: [landed] starts [false] ("landed is false until
    the frame where position first reaches the contact threshold"); the
    other in-class initialisers of CannonBall.h are taken from [h]. *)
Definition new_CannonBall (h : HeaderDefaults) (now : Z)
    (startPosition startVelocity : Vector2) (predictedAirTime : T)
    (_groundHeight : T) : CannonBall * list SpawnerRequest :=
  let t := mkTransform startPosition startVelocity
             (mkVector2 (lit 0) GRAVITY) true in
  (mkCannonBall t (d_radius h) (d_elasticity h) _groundHeight false
     (position t) (velocity t) (d_endPos h) (d_endV h) (d_controlPoint h)
     now (d_endTime h) (d_airTime h) (d_showTrajectory h)
     (d_trajectoryAlpha h) (d_destroyTimer h) (d_destroyDuration h)
     (d_color h),
   [mkRequest 1 predictedAirTime (smokeParams t) true]).

(** [CannonBall::ComputeDrag]. *)
Definition ComputeDrag (c : CannonBall) : Vector2 :=
  let dragCoeff :=
    dec 1 2 * AIR_DENSITY * SPHERE_DRAG_COEFF * s_PI * sqpow (radius c) in
  Vscale (Vscale (velocity (transform c)) (GetLength (velocity (transform c))))
         (s_opp dragCoeff).

(** [CannonBall::UpdateTrajectory]. *)
Definition UpdateTrajectory (now : Z) (c : CannonBall) : CannonBall :=
  let _endTime := now in
  let _airTime :=
    s_of_Z (Z.quot (_endTime - startTime c) TICKS_PER_MS) / lit 1000 in
  let _endPos := position (transform c) in
  let _endV := velocity (transform c) in
  set_trajectory c _endTime _airTime _endPos _endV
    (LineIntersection (startPos c) (startV c) _endPos (Vneg _endV)).

(** The ground contact threshold [groundHeight - radius * PIXEL_SCALE]. *)
Definition threshold (c : CannonBall) : T :=
  groundHeight c - radius c * PIXEL_SCALE.

(** The landing-dust request of [Update]. *)
Definition landingParams (c : CannonBall) : SpawnerParticleParams :=
  mkParams POLYGON
    (Vadd (position (transform c))
          (mkVector2 (lit 0) (radius c * PIXEL_SCALE * dec 3 2)))
    (s_opp s_PI / lit 4) (s_PI + s_PI / lit 2)
    (lit 250) (lit 500)
    (lit 0) (lit 0)
    (lit 0) (lit 0)
    (lit 20) (lit 35)
    (dec 5 100) (dec 2 10)
    WHITE.

Definition landingBurst (c : CannonBall) : SpawnerRequest :=
  mkRequest 1 (dec 1 10) (landingParams c) false.

(** [Update], lines 54-56: the trajectory fade. *)
Definition fadeTrajectory (deltaTime : T) (c : CannonBall) : CannonBall :=
  if showTrajectory c && (trajectoryAlpha c <? lit 1) then
    set_trajectoryAlpha c (clamp (trajectoryAlpha c + deltaTime) (lit 0) (lit 1))
  else if negb (showTrajectory c) && (trajectoryAlpha c >? lit 0) then
    set_trajectoryAlpha c (clamp (trajectoryAlpha c - deltaTime) (lit 0) (lit 1))
  else c.

(** [Update], lines 69-74: the first ground contact. *)
Definition firstContact (now : Z) (c : CannonBall) : CannonBall :=
  if negb (landed c) then set_landed (UpdateTrajectory now c) true else c.

(** [Update], lines 77-82: the bounce. *)
Definition bounce (c : CannonBall) : CannonBall :=
  let t0 := transform c in
  let t1 := set_position t0 (set_y (position t0) (threshold c - dec 1 100)) in
  let t2 := set_velocity t1 (set_y (velocity t1) (y (velocity t1) * lit (-1))) in
  let t3 := set_velocity t2
              (SetLength (velocity t2) (GetLength (velocity t2) * elasticity c)) in
  set_transform c t3.

(** [Update], lines 85-90: the rest snap. *)
Definition rest (c : CannonBall) : CannonBall :=
  let t0 := transform c in
  let t1 := set_position t0 (set_y (position t0) (threshold c)) in
  let t2 := set_velocity t1 Vzero in
  let t3 := set_acceleration t2 Vzero in
  set_transform c t3.

(** [Update], lines 58-105: integration above the ground, landing logic
    under it, and nothing when the height equals the threshold. *)
Definition physics (now : Z) (deltaTime : T) (c : CannonBall)
    : CannonBall * list SpawnerRequest :=
  if y (position (transform c)) <? threshold c then
    let c1 := set_transform c (Transform_Update deltaTime (transform c)) in
    (if negb (landed c1) then UpdateTrajectory now c1 else c1, [])
  else if y (position (transform c)) >? threshold c then
    let c1 := firstContact now c in
    let c2 := if GetLength (velocity (transform c1)) >? lit 10
              then bounce c1 else rest c1 in
    (c2, [landingBurst c2])
  else (c, []).

(** [Update], lines 107-112: the destroy fade. *)
Definition fadeDestroy (deltaTime : T) (c : CannonBall) : CannonBall :=
  if (lit 0 <=? destroyTimer c) && (destroyTimer c <=? destroyDuration c) then
    let c1 := set_destroyTimer c (destroyTimer c - deltaTime) in
    set_color c1
      (set_a (color c1)
             (to_uchar (lit 255 * (destroyTimer c1 / destroyDuration c1))))
  else c.

(** [CannonBall::Update]: the new state and the spawner requests issued. *)
Definition Update (now : Z) (deltaTime : T) (c : CannonBall)
    : CannonBall * list SpawnerRequest :=
  let c1 := fadeTrajectory deltaTime c in
  let '(c2, reqs) := physics now deltaTime c1 in
  (fadeDestroy deltaTime c2, reqs).

(** [CannonBall::Destroy]. *)
Definition Destroy (c : CannonBall) : CannonBall :=
  set_destroyTimer c (destroyDuration c).

(** ** Sequences of calls *)

(** What can happen to a cannonball between its construction and its
    removal: the host calls [Update] or [Destroy] or writes the
    [showTrajectory] flag; [UpdateTrajectory] is the member [Update] calls. *)
Inductive Op : Type :=
  | OpUpdate (now : Z) (deltaTime : T)
  | OpDestroy
  | OpShowTrajectory (show : bool)
  | OpUpdateTrajectory (now : Z).

Definition apply_op (o : Op) (c : CannonBall) : CannonBall :=
  match o with
  | OpUpdate now dt => fst (Update now dt c)
  | OpDestroy => Destroy c
  | OpShowTrajectory s => set_showTrajectory c s
  | OpUpdateTrajectory now => UpdateTrajectory now c
  end.

(** The operations the host performs; it never calls [UpdateTrajectory]. *)
Definition host_op (o : Op) : bool :=
  match o with OpUpdateTrajectory _ => false | _ => true end.

Fixpoint run (ops : list Op) (c : CannonBall) : CannonBall :=
  match ops with
  | [] => c
  | o :: ops' => run ops' (apply_op o c)
  end.

(** The states a sequence of calls goes through, the first one included. *)
Fixpoint trace (ops : list Op) (c : CannonBall) : list CannonBall :=
  c :: match ops with
       | [] => []
       | o :: ops' => trace ops' (apply_op o c)
       end.

(** A sequence of [Update] calls, one per frame [(now, deltaTime)]. *)
Definition frames (fs : list (Z * T)) : list Op :=
  map (fun f => OpUpdate (fst f) (snd f)) fs.

(** Number of places where a sequence of flags goes from [false] to [true],
    and from [true] to [false]. *)
Fixpoint count_rises (l : list bool) : nat :=
  match l with
  | u :: ((v :: _) as l') =>
      (if negb u && v then 1 else 0) + count_rises l'
  | _ => 0
  end.

Fixpoint count_falls (l : list bool) : nat :=
  match l with
  | u :: ((v :: _) as l') =>
      (if u && negb v then 1 else 0) + count_falls l'
  | _ => 0
  end.

(** The part of the trajectory snapshot [UpdateTrajectory] writes and the
    drawing code reads. *)
Definition snapshot (c : CannonBall) : T * Vector2 * Vector2 * Vector2 :=
  (airTime c, endPos c, endV c, controlPoint c).

(** "The landing logic ran" in the call [Update now deltaTime c]: the flag is
    set, a flag that was still unset froze the snapshot at the state the call
    found, and the transform is the one the bounce or the rest branch leaves
    ([c'] is the state after the call). *)
Definition landing_ran (now : Z) (c c' : CannonBall) : Prop :=
  landed c' = true
  /\ (landed c = false ->
      endTime c' = now /\ snapshot c' = snapshot (UpdateTrajectory now c))
  /\ transform c' =
       transform (if GetLength (velocity (transform c)) >? lit 10
                  then bounce c else rest c).

(** A cannonball lying still exactly on the contact plane. *)
Definition at_rest (c : CannonBall) : Prop :=
  velocity (transform c) = Vzero
  /\ acceleration (transform c) = Vzero
  /\ y (position (transform c)) = threshold c.

End Model.

Arguments Vector2 T : clear implicits.
Arguments Transform T : clear implicits.
Arguments SpawnerParticleParams T : clear implicits.
Arguments SpawnerRequest T : clear implicits.
Arguments CannonBall T : clear implicits.
Arguments HeaderDefaults T : clear implicits.
Arguments Op T : clear implicits.

(** ** Drawing, and the observations the further properties use *)

Section Drawing.

Context {T : Type} {ST : Scalar T}.
Local Open Scope scalar_scope.

(** The calls [Draw] and [DrawTrajectory] make to raylib, in order.  The
    [(int)] conversions of the coordinates are [to_int32]. *)
Inductive DrawCmd : Type :=
  | CmdCircle (centerX centerY : Z) (rad : T) (col : Color)
  | CmdCircleLines (centerX centerY : Z) (rad : T) (col : Color)
  | CmdText (text : String.string) (posX posY : Z) (fontSize : Z)
            (col : Color)
  | CmdLineBezierQuad (startP endP controlP : Vector2 T) (thick : T)
                      (col : Color)
  | CmdPoly (center : Vector2 T) (sides : Z) (rad : T) (rotation : T)
            (col : Color).

Definition BLACK : Color := mkColor 0 0 0 255.

(** Modelled from the spec: [min] of Arithmetic.h, the smaller of two
    numbers. *)
Definition s_min (u v : T) : T := if u <? v then u else v.

(** The [(int)] conversion of a [float] to a 32-bit [int]: the value
    truncated toward zero when that fits; a truncated value outside
    -2^31..2^31-1 is not representable (the C++ standard leaves that
    conversion undefined), and the model yields [INT_MIN], which is what
    the conversion instruction of x86-64 yields. *)
Definition INT_MIN : Z := -2147483648.
Definition INT_MAX : Z := 2147483647.

Definition to_int32 (v : T) : Z :=
  let z := s_to_int v in
  if ((INT_MIN <=? z) && (z <=? INT_MAX))%Z then z else INT_MIN.

(** What the drawing code cannot compute by itself: the pixel scale, the
    [std::fixed << std::setprecision(2)] rendering of a [float], raylib's
    [MeasureText], and [GetAngle] and [radToDeg] of the Maths library. *)
Variable PIXEL_SCALE : T.
Variable formatFixed2 : T -> String.string.
Variable MeasureText : String.string -> Z -> Z.
Variable GetAngle : Vector2 T -> T.
Variable radToDeg : T -> T.

(** [curColor], lines 122 and 133: the colour of the ball with the alpha
    [(unsigned char)min(trajectoryAlpha * 255, color.a)]. *)
Definition curColor (c : CannonBall T) : Color :=
  mkColor (r (color c)) (g (color c)) (b (color c))
    (to_uchar (s_min (trajectoryAlpha c * lit 255) (s_of_Z (a (color c))))).

(** The label [Draw] prints: the air time with two decimals and the
    letter s (character 115). *)
Definition airTimeLabel (c : CannonBall T) : String.string :=
  String.append (formatFixed2 (airTime c))
                (String.String (Ascii.ascii_of_nat 115) String.EmptyString).

(** [CannonBall::Draw]. *)
Definition Draw (c : CannonBall T) : list DrawCmd :=
  let p := position (transform c) in
  let textPos :=
    mkVector2 (x p - s_of_Z (MeasureText (airTimeLabel c) 20) / lit 2)
              (y p - lit 10) in
  [ CmdCircle (to_int32 (x p)) (to_int32 (y p)) (radius c * PIXEL_SCALE) BLACK;
    CmdCircleLines (to_int32 (x p)) (to_int32 (y p)) (radius c * PIXEL_SCALE)
                   (color c);
    CmdText (airTimeLabel c) (to_int32 (x textPos)) (to_int32 (y textPos)) 20
            (curColor c) ].

(** [CannonBall::DrawTrajectory]. *)
Definition DrawTrajectory (c : CannonBall T) : list DrawCmd :=
  [ CmdLineBezierQuad (startPos c) (endPos c) (controlPoint c) (lit 1)
                      (curColor c);
    CmdPoly (endPos c) 3 (lit 12) (radToDeg (GetAngle (endV c)) - lit 90)
            (curColor c) ].

(** The colour a draw command uses. *)
Definition cmd_color (d : DrawCmd) : Color :=
  match d with
  | CmdCircle _ _ _ col | CmdCircleLines _ _ _ col | CmdText _ _ _ _ col
  | CmdLineBezierQuad _ _ _ _ col | CmdPoly _ _ _ _ col => col
  end.

(** The guard of the destroy fade, line 108. *)
Definition fade_running (c : CannonBall T) : bool :=
  (lit 0 <=? destroyTimer c) && (destroyTimer c <=? destroyDuration c).

(** The operations other than [Destroy]. *)
Definition no_destroy (o : Op T) : bool :=
  match o with OpDestroy => false | _ => true end.

(** What the constructor fixes for the whole life of a cannonball. *)
Definition launch_data (c : CannonBall T)
    : T * T * T * Vector2 T * Vector2 T * Z * T * (Z * Z * Z) :=
  (radius c, elasticity c, groundHeight c, startPos c, startV c,
   startTime c, destroyDuration c,
   (r (color c), g (color c), b (color c))).

(** Everything but the destroy timer and the colour. *)
Definition physical (c : CannonBall T)
    : Transform T * (T * T * T) * bool * (Vector2 T * Vector2 T * Z)
      * (Z * T * Vector2 T * Vector2 T * Vector2 T) * (bool * T) :=
  (transform c, (radius c, elasticity c, groundHeight c), landed c,
   (startPos c, startV c, startTime c),
   (endTime c, airTime c, endPos c, endV c, controlPoint c),
   (showTrajectory c, trajectoryAlpha c)).

End Drawing.

Arguments DrawCmd T : clear implicits.

(** ** IEEE binary32: the arithmetic the program runs *)

Module Binary32.

Definition prec : Z := 24.
Definition emax : Z := 128.

Definition float32 : Type := spec_float.

(** Round-to-nearest-even conversion of an integer. *)
Definition of_Z (z : Z) : float32 := binary_normalize prec emax z 0 false.

(** Truncation toward zero.  The conversion of NaN and of the infinities
    is undefined in C++; the model yields -2^31, the value the conversion
    instruction of x86-64 yields for them (its low eight bits are 0). *)
Definition to_int (f : float32) : Z :=
  match f with
  | S754_zero _ => 0
  | S754_finite s m e => cond_Zopp s (Z.shiftl (Zpos m) e)
  | S754_infinity _ | S754_nan => -2147483648
  end.

(** The [float] nearest to pi, 0x40490FDB. *)
Definition PI32 : float32 := S754_finite false 13176795 (-22).

Lemma SFcompare_antisym (u v : float32) :
  SFcompare v u = option_map CompOpp (SFcompare u v).
Proof.
  destruct u as [su|su| |su mu eu], v as [sv|sv| |sv mv ev]; simpl;
    try reflexivity;
    try (destruct su; reflexivity);
    try (destruct sv; reflexivity);
    try (destruct su, sv; reflexivity).
  assert (Hm : Pos.compare_cont Eq mv mu = CompOpp (Pos.compare_cont Eq mu mv))
    by (symmetry; apply (Pos.compare_cont_antisym mu mv Eq)).
  destruct su, sv; simpl; try reflexivity;
    rewrite (Z.compare_antisym eu ev), Hm;
    destruct (eu ?= ev)%Z; simpl; try reflexivity;
    destruct (Pos.compare_cont Eq mu mv); reflexivity.
Qed.

Lemma SFltb_asym (u v : float32) : SFltb u v = true -> SFltb v u = false.
Proof.
  unfold SFltb. rewrite (SFcompare_antisym u v).
  destruct (SFcompare u v) as [[| |]|]; simpl; congruence.
Qed.

#[export] Instance float32_scalar : Scalar float32 := {|
  s_of_Z := of_Z;
  s_add := SFadd prec emax;
  s_sub := SFsub prec emax;
  s_mul := SFmul prec emax;
  s_div := SFdiv prec emax;
  s_sqrt := SFsqrt prec emax;
  s_ltb := SFltb;
  s_leb := SFleb;
  s_to_int := to_int;
  s_PI := PI32;
  s_ltb_asym := SFltb_asym
|}.

End Binary32.

(** ** The real numbers: exact arithmetic, an idealisation *)

(** The program does not run on this instance: a [float] operation rounds,
    overflows, underflows and can yield NaN, and the operations below do
    none of that.  The instance serves to state what the formulas of the
    code compute when rounding is ignored; nothing proved here is a
    statement about the values the program produces. *)

Module Exact.

Definition Rltb (u v : R) : bool := if Rlt_dec u v then true else false.
Definition Rleb (u v : R) : bool := if Rle_dec u v then true else false.

(** Truncation toward zero. *)
Definition Rtrunc (u : R) : Z :=
  if Rle_dec 0 u then Int_part u else (- Int_part (- u))%Z.

(** The cumulative time of a list of frames. *)
Definition elapsed (fs : list (Z * R)) : R :=
  fold_right (fun f acc => (snd f + acc)%R) 0%R fs.

Lemma Rltb_asym (u v : R) : Rltb u v = true -> Rltb v u = false.
Proof.
  unfold Rltb. destruct (Rlt_dec u v), (Rlt_dec v u); try reflexivity;
    try discriminate. lra.
Qed.

#[export] Instance R_scalar : Scalar R := {|
  s_of_Z := IZR;
  s_add := Rplus;
  s_sub := Rminus;
  s_mul := Rmult;
  s_div := Rdiv;
  s_sqrt := sqrt;
  s_ltb := Rltb;
  s_leb := Rleb;
  s_to_int := Rtrunc;
  s_PI := PI;
  s_ltb_asym := Rltb_asym
|}.

End Exact.

(** ** A concrete world on binary32 *)

(** The values of the specification's scenario: radius 1, pixel scale 1,
    ground height 100, gravity 98, elasticity 0.5, destroy duration 1; the
    clock ticks in nanoseconds; the destroy timer starts below zero, the
    fade not running. *)
Module Scenario.
Import Binary32.

Definition GRAVITY : float32 := of_Z 98.
Definition PIXEL_SCALE : float32 := of_Z 1.
Definition TICKS_PER_MS : Z := 1000000.

Definition defaults : HeaderDefaults float32 :=
  mkDefaults (of_Z 1) (dec 1 2) Vzero Vzero Vzero 0 (of_Z 0)
    false (of_Z 0) (of_Z (-1)) (of_Z 1) WHITE.

(** A cannonball constructed at time 0 at [(px, py)] with velocity
    [(vx, vy)], over a ground at height 100. *)
Definition spawn (px py vx vy : Z) : CannonBall float32 :=
  fst (new_CannonBall GRAVITY defaults 0
         (mkVector2 (of_Z px) (of_Z py)) (mkVector2 (of_Z vx) (of_Z vy))
         (of_Z 2) (of_Z 100)).

Definition Update32 (now : Z) (deltaTime : float32) (c : CannonBall float32)
    : CannonBall float32 * list (SpawnerRequest float32) :=
  Update PIXEL_SCALE lineIntersection TICKS_PER_MS now deltaTime c.

Definition run32 (ops : list (Op float32)) (c : CannonBall float32)
    : CannonBall float32 :=
  run PIXEL_SCALE lineIntersection TICKS_PER_MS ops c.

(** A frame of 1/64 s, and the clock reading [n] frames after time 0. *)
Definition frame : float32 := dec 1 64.
Definition tick (n : Z) : Z := n * 15625000.

(** A cannonball constructed exactly on the contact plane (y = 99 = 100 - 1*1),
    falling at 50 units per second. *)
Definition ball_on_threshold : CannonBall float32 := spawn 0 99 0 50.

(** A cannonball constructed exactly on the contact plane, gliding
    horizontally at 1 unit per second. *)
Definition glider_on_threshold : CannonBall float32 := spawn 0 99 1 0.

(** Cannonballs constructed one unit under the contact plane, a slow one
    (speed 5) and a fast one (speed 50). *)
Definition slow_ball_under : CannonBall float32 := spawn 0 100 0 5.
Definition fast_ball_under : CannonBall float32 := spawn 0 100 0 50.

(** The slow ball after its first frame: snapped to rest. *)
Definition rested_ball : CannonBall float32 :=
  fst (Update32 (tick 1) frame slow_ball_under).

(** The fast ball after its first frame: landed and bounced. *)
Definition bounced_ball : CannonBall float32 :=
  fst (Update32 (tick 1) frame fast_ball_under).

(** A cannonball in flight whose destruction has been requested. *)
Definition fading_ball : CannonBall float32 := Destroy (spawn 0 0 0 0).

(** A few later frames, with a [Destroy] and a trajectory toggle between
    them. *)
Definition later_frames : list (Op float32) :=
  [OpUpdate (tick 2) frame; OpShowTrajectory true; OpUpdate (tick 3) frame;
   OpDestroy; OpUpdate (tick 4) frame; OpUpdate (tick 5) (dec 1 2)].

(** [n] consecutive frames of 1/64 s, and the fading ball after them. *)
Definition steady_frames (n : nat) : list (Op float32) :=
  map (fun k => OpUpdate (tick (Z.of_nat k)) frame) (seq 1 n).

Definition faded_ball (n : nat) : CannonBall float32 :=
  run32 (steady_frames n) fading_ball.

End Scenario.

(** ** The same world on the reals *)

Module ScenarioR.
Import Exact.
Local Open Scope R_scope.

Definition GRAVITY : R := 98.
Definition PIXEL_SCALE : R := 1.
Definition TICKS_PER_MS : Z := 1000000.

(** Air at sea level and a smooth sphere. *)
Definition AIR_DENSITY : R := 1225 / 1000.
Definition SPHERE_DRAG_COEFF : R := 47 / 100.

Definition defaults : HeaderDefaults R :=
  mkDefaults 1 (1 / 2) Vzero Vzero Vzero 0%Z 0 false 0 (-1) 1 WHITE.

Definition spawn (p v : Vector2 R) : CannonBall R :=
  fst (new_CannonBall GRAVITY defaults 0 p v 2 100).

Definition UpdateR (now : Z) (deltaTime : R) (c : CannonBall R)
    : CannonBall R * list (SpawnerRequest R) :=
  Update PIXEL_SCALE lineIntersection TICKS_PER_MS now deltaTime c.

(** One unit under the contact plane, falling at 20 units per second. *)
Definition falling_ball : CannonBall R :=
  spawn (mkVector2 0 100) (mkVector2 0 20).

(** In flight, moving horizontally at 2 units per second. *)
Definition flying_ball : CannonBall R :=
  spawn (mkVector2 0 0) (mkVector2 2 0).

(** The trajectory display switched on, then a quarter of a second. *)
Definition show_frames : list (Op R) :=
  [OpShowTrajectory true; OpUpdate 0 (1 / 4); OpUpdate 0 (1 / 4)].

End ScenarioR.

(** ** Further concrete states *)

Module ScenarioX.
Import Binary32 Scenario.

(** A cannonball constructed at a height that is not a number. *)
Definition nan_ball : CannonBall float32 :=
  fst (new_CannonBall GRAVITY defaults 0
         (mkVector2 (of_Z 0) S754_nan) (mkVector2 (of_Z 1) (of_Z 0))
         (of_Z 2) (of_Z 100)).

(** A cannonball dropped from one unit above the contact plane. *)
Definition dropped_ball : CannonBall float32 := spawn 0 98 0 50.

End ScenarioX.

Module ScenarioXR.
Import Exact ScenarioR.
Local Open Scope R_scope.

(** A renderer that prints every number as the empty text, zero pixels
    wide, and a Maths library whose angles are all zero: enough to run the
    drawing code where the text and the angle do not matter. *)
Definition blank_format (u : R) : String.string := String.EmptyString.
Definition zero_width (text : String.string) (fontSize : Z) : Z := 0%Z.
Definition zero_angle (v : Vector2 R) : R := 0.
Definition same_angle (u : R) : R := u.

End ScenarioXR.

(** ** Observations on binary32 numbers *)

Module Binary32Obs.
Import Binary32.

(** Not-a-number. *)
Definition is_nan (f : float32) : bool :=
  match f with S754_nan => true | _ => false end.

(** The sign bit; a NaN has none and counts as clear. *)
Definition sign_bit (f : float32) : bool :=
  match f with
  | S754_zero s | S754_infinity s | S754_finite s _ _ => s
  | S754_nan => false
  end.

(** Plus or minus zero. *)
Definition is_zero (f : float32) : bool :=
  match f with S754_zero _ => true | _ => false end.

(** Zero or finite: neither NaN nor an infinity. *)
Definition is_finite (f : float32) : bool :=
  match f with S754_zero _ | S754_finite _ _ _ => true | _ => false end.

(** Within [0, 1], by the comparisons of the program. *)
Definition in_unit (f : float32) : bool :=
  SFleb (of_Z 0) f && SFleb f (of_Z 1).

(** The [deltaTime] of an [Update] call is a number. *)
Definition dt_defined (o : Op float32) : bool :=
  match o with OpUpdate _ dt => negb (is_nan dt) | _ => true end.

End Binary32Obs.


(** ** Concrete states that rounding decides *)

Module ScenarioF.
Import Binary32 Scenario.

(** A cannonball constructed at time 0 at [p] with velocity [v], over a
    ground at height 100. *)
Definition launch (p v : Vector2 float32) : CannonBall float32 :=
  fst (new_CannonBall GRAVITY defaults 0 p v (of_Z 2) (of_Z 100)).

(** In flight one unit above the contact plane, falling at 62.46875 units
    per second: one frame of 1/64 s takes the velocity to 64 and the height
    to 98 + 64/64 = 99, the contact plane exactly. *)
Definition grazing_ball : CannonBall float32 :=
  launch (mkVector2 (of_Z 0) (of_Z 98)) (mkVector2 (of_Z 0) (dec 1999 32)).

(** In flight an eighth of a unit above the contact plane, falling at
    6.46875 units per second: one frame of 1/64 s takes the velocity to 8
    and the height to 98.875 + 8/64 = 99. *)
Definition slow_grazing_ball : CannonBall float32 :=
  launch (mkVector2 (of_Z 0) (dec 791 8)) (mkVector2 (of_Z 0) (dec 207 32)).

(** Both balls after their first frame. *)
Definition hanging_ball : CannonBall float32 :=
  fst (Update32 (tick 1) frame grazing_ball).
Definition slow_hanging_ball : CannonBall float32 :=
  fst (Update32 (tick 1) frame slow_grazing_ball).

(** One unit under the contact plane with velocity (11, 13), and with
    velocity (30, 40). *)
Definition skew_ball_under : CannonBall float32 := spawn 0 100 11 13.
Definition steep_ball_under : CannonBall float32 := spawn 0 100 30 40.

(** A ball whose trajectory has been shown for half a second, and a frame
    of 2^-26 s. *)
Definition half_shown_ball : CannonBall float32 :=
  run32 [OpShowTrajectory true; OpUpdate (tick 1) (dec 1 2)] (spawn 0 0 0 0).
Definition sliver : float32 := dec 1 67108864.

(** Toggling the trajectory display between frames. *)
Definition toggling_frames : list (Op float32) :=
  [OpShowTrajectory true; OpUpdate (tick 1) frame; OpUpdate (tick 2) (of_Z 3);
   OpShowTrajectory false; OpUpdate (tick 3) sliver; OpDestroy;
   OpUpdate (tick 4) (dec 1 2); OpUpdate (tick 5) (of_Z 1)].

(** Air at sea level and a smooth sphere. *)
Definition AIR_DENSITY : float32 := dec 1225 1000.
Definition SPHERE_DRAG_COEFF : float32 := dec 47 100.

(** Cannonballs moving along +x at 2^-80, at 2 and at 2^100 units per
    second, one at rest in the air, and one moving at (3, -4). *)
Definition creeping_ball : CannonBall float32 :=
  launch (mkVector2 (of_Z 0) (of_Z 0))
         (mkVector2 (dec 1 (2 ^ 80)) (of_Z 0)).
Definition cruising_ball : CannonBall float32 := spawn 0 0 2 0.
Definition racing_ball : CannonBall float32 :=
  launch (mkVector2 (of_Z 0) (of_Z 0))
         (mkVector2 (of_Z (2 ^ 100)) (of_Z 0)).
Definition still_ball : CannonBall float32 := spawn 0 0 0 0.
Definition slanted_ball : CannonBall float32 := spawn 0 0 3 (-4).

(** A fast cannonball one unit under a contact plane at height 262145,
    where the spacing of binary32 numbers is 1/32. *)
Definition deep_ball_under : CannonBall float32 :=
  fst (new_CannonBall GRAVITY defaults 0
         (mkVector2 (of_Z 0) (of_Z 262146)) (mkVector2 (of_Z 0) (of_Z 50))
         (of_Z 2) (of_Z 262146)).

(** The drawing code with a renderer that prints every number as the empty
    text, zero pixels wide, and angles that are all zero. *)
Definition blank_format (u : float32) : String.string := String.EmptyString.
Definition zero_width (text : String.string) (fontSize : Z) : Z := 0%Z.

(** A cannonball at x = 3e9, beyond the range of a 32-bit [int]. *)
Definition far_ball : CannonBall float32 := spawn 3000000000 0 0 0.

End ScenarioF.

(** * Control flow: facts that hold for every [Scalar] *)

(** Case analysis on every [if] of the goal, innermost condition first. *)
Ltac split_ifs :=
  repeat (match goal with
          | |- context [if ?c then _ else _] =>
              lazymatch c with
              | context [if _ then _ else _] => fail
              | _ => destruct c eqn:?
              end
          end; cbn in *).

(** Opens a goal about one call of [Update] on an arbitrary cannonball. *)
Ltac open_update c :=
  unfold Update, physics, fadeDestroy, firstContact, fadeTrajectory,
    UpdateTrajectory, bounce, rest, landingBurst, landingParams, snapshot,
    threshold in *;
  destruct c; cbn in *.

Section ControlFlow.

Context {T : Type} {ST : Scalar T}.
Variable GRAVITY PIXEL_SCALE : T.
Variable LineIntersection :
  Vector2 T -> Vector2 T -> Vector2 T -> Vector2 T -> Vector2 T.
Variable TICKS_PER_MS : Z.
Local Open Scope scalar_scope.

Local Abbreviation Update := (Update PIXEL_SCALE LineIntersection TICKS_PER_MS).
Local Abbreviation UpdateTrajectory :=
  (UpdateTrajectory LineIntersection TICKS_PER_MS).
Local Abbreviation threshold := (threshold PIXEL_SCALE).
Local Abbreviation landingBurst := (landingBurst PIXEL_SCALE).
Local Abbreviation bounce := (bounce PIXEL_SCALE).
Local Abbreviation rest := (rest PIXEL_SCALE).
Local Abbreviation apply_op :=
  (apply_op PIXEL_SCALE LineIntersection TICKS_PER_MS).
Local Abbreviation run := (run PIXEL_SCALE LineIntersection TICKS_PER_MS).
Local Abbreviation trace := (trace PIXEL_SCALE LineIntersection TICKS_PER_MS).
Local Abbreviation at_rest := (at_rest PIXEL_SCALE).
Local Abbreviation landing_ran :=
  (landing_ran PIXEL_SCALE LineIntersection TICKS_PER_MS).

Lemma s_ltb_irrefl (u : T) : (u <? u) = false.
Proof.
  destruct (u <? u) eqn:E; [|reflexivity].
  pose proof (s_ltb_asym _ _ E) as E'. congruence.
Qed.

(** *** The landed flag and the frozen snapshot *)

Lemma Update_keeps_landed (now : Z) (dt : T) (c : CannonBall T) :
  landed c = true -> landed (fst (Update now dt c)) = true.
Proof.
  intros H. open_update c. subst. split_ifs; reflexivity.
Qed.

Lemma apply_op_keeps_landed (o : Op T) (c : CannonBall T) :
  landed c = true -> landed (apply_op o c) = true.
Proof.
  destruct o; cbn.
  - apply Update_keeps_landed.
  - destruct c; trivial.
  - destruct c; trivial.
  - destruct c; trivial.
Qed.

Lemma trace_landed_profile (ops : list (Op T)) :
  forall c : CannonBall T,
    count_falls (map (@landed T) (trace ops c)) = 0%nat
    /\ (count_rises (map (@landed T) (trace ops c))
        <= if landed c then 0 else 1)%nat.
Proof.
  induction ops as [|o ops IH]; intros c.
  - cbn. destruct (landed c); auto.
  - destruct (IH (apply_op o c)) as [Hf Hr].
    change (trace (o :: ops) c) with (c :: trace ops (apply_op o c)).
    destruct ops as [|o' ops'].
    + cbn in *. destruct (landed c) eqn:Hc.
      * rewrite (apply_op_keeps_landed o c Hc). cbn. auto.
      * destruct (landed (apply_op o c)); cbn; auto.
    + cbn in *.
      destruct (landed c) eqn:Hc.
      * rewrite (apply_op_keeps_landed o c Hc) in *. cbn [negb andb] in *.
        split; [exact Hf | exact Hr].
      * destruct (landed (apply_op o c)); cbn [negb andb] in *; split; lia.
Qed.

Lemma Update_keeps_snapshot (now : Z) (dt : T) (c : CannonBall T) :
  landed c = true -> snapshot (fst (Update now dt c)) = snapshot c.
Proof.
  intros H. open_update c. subst. split_ifs; reflexivity.
Qed.

Lemma host_op_keeps_snapshot (o : Op T) (c : CannonBall T) :
  host_op o = true -> landed c = true ->
  snapshot (apply_op o c) = snapshot c.
Proof.
  destruct o; cbn; intros Ho Hc;
    try discriminate.
  - now apply Update_keeps_snapshot.
  - destruct c; reflexivity.
  - destruct c; reflexivity.
Qed.

Lemma run_keeps_snapshot (ops : list (Op T)) :
  forall c : CannonBall T,
    forallb (@host_op T) ops = true -> landed c = true ->
    landed (run ops c) = true /\ snapshot (run ops c) = snapshot c.
Proof.
  induction ops as [|o ops IH]; intros c Hops Hc; cbn in *.
  - auto.
  - apply andb_true_iff in Hops as [Ho Hops].
    destruct (IH (apply_op o c) Hops (apply_op_keeps_landed o c Hc))
      as [Hl Hs].
    split; [exact Hl|].
    rewrite Hs. now apply host_op_keeps_snapshot.
Qed.

(** *** The acceleration *)

Lemma Update_acceleration (now : Z) (dt : T) (c : CannonBall T) :
  acceleration (transform (fst (Update now dt c))) = acceleration (transform c)
  \/ acceleration (transform (fst (Update now dt c))) = Vzero.
Proof.
  open_update c. split_ifs; auto.
Qed.

Lemma apply_op_acceleration (o : Op T) (c : CannonBall T) :
  acceleration (transform (apply_op o c)) = acceleration (transform c)
  \/ acceleration (transform (apply_op o c)) = Vzero.
Proof.
  destruct o; cbn.
  - apply Update_acceleration.
  - destruct c; auto.
  - destruct c; auto.
  - destruct c; auto.
Qed.

(** *** The rest state *)

Lemma Update_at_rest (now : Z) (dt : T) (c : CannonBall T) :
  at_rest c ->
  at_rest (fst (Update now dt c))
  /\ threshold (fst (Update now dt c)) = threshold c.
Proof.
  unfold at_rest. intros (Hv & Ha & Hy).
  open_update c. destruct transform0 as [p v a0 rf]. cbn in *.
  destruct p as [px py]. cbn in *. subst.
  split_ifs;
    try match goal with
        | H : (?u <? ?u) = true |- _ =>
            rewrite s_ltb_irrefl in H; discriminate
        end;
    auto.
Qed.

Lemma host_op_at_rest (o : Op T) (c : CannonBall T) :
  host_op o = true -> at_rest c ->
  at_rest (apply_op o c) /\ threshold (apply_op o c) = threshold c.
Proof.
  destruct o; cbn; intros Ho Hc; try discriminate.
  - now apply Update_at_rest.
  - destruct c; auto.
  - destruct c; auto.
Qed.

Lemma run_at_rest (ops : list (Op T)) :
  forall c : CannonBall T,
    forallb (@host_op T) ops = true -> at_rest c ->
    at_rest (run ops c) /\ threshold (run ops c) = threshold c.
Proof.
  induction ops as [|o ops IH]; intros c Hops Hc; cbn in *.
  - auto.
  - apply andb_true_iff in Hops as [Ho Hops].
    destruct (host_op_at_rest o c Ho Hc) as [Hr Ht].
    destruct (IH (apply_op o c) Hops Hr) as [Hr' Ht'].
    split; [exact Hr' | congruence].
Qed.

Lemma Update_rest_snap (now : Z) (dt : T) (c : CannonBall T) :
  (y (position (transform c)) >? threshold c) = true ->
  (GetLength (velocity (transform c)) >? lit 10) = false ->
  at_rest (fst (Update now dt c))
  /\ threshold (fst (Update now dt c)) = threshold c.
Proof.
  unfold at_rest. intros Hy Hv. pose proof (s_ltb_asym _ _ Hy) as Hy'.
  open_update c. split_ifs; try congruence; auto.
Qed.

(** *** What one call does to the transform and to the destroy fade *)

Lemma Update_under_transform (now : Z) (dt : T) (c : CannonBall T) :
  (y (position (transform c)) >? threshold c) = true ->
  transform (fst (Update now dt c)) =
  transform (if GetLength (velocity (transform c)) >? lit 10
             then bounce c else rest c).
Proof.
  intros Hy. pose proof (s_ltb_asym _ _ Hy) as Hy'.
  open_update c. split_ifs; try congruence; reflexivity.
Qed.

Lemma Update_trajectoryAlpha (now : Z) (dt : T) (c : CannonBall T) :
  trajectoryAlpha (fst (Update now dt c)) =
  trajectoryAlpha (fadeTrajectory dt c).
Proof.
  open_update c. split_ifs; reflexivity.
Qed.

Lemma Update_destroy_fade (now : Z) (dt : T) (c : CannonBall T) :
  destroyDuration (fst (Update now dt c)) = destroyDuration c
  /\ destroyTimer (fst (Update now dt c)) =
       (if (lit 0 <=? destroyTimer c) && (destroyTimer c <=? destroyDuration c)
        then destroyTimer c - dt else destroyTimer c)
  /\ a (color (fst (Update now dt c))) =
       (if (lit 0 <=? destroyTimer c) && (destroyTimer c <=? destroyDuration c)
        then to_uchar (lit 255 * ((destroyTimer c - dt) / destroyDuration c))
        else a (color c)).
Proof.
  open_update c. split_ifs; auto.
Qed.

(** [Destroy] writes [destroyTimer] and nothing else. *)
Lemma Destroy_only_sets_timer (c : CannonBall T) :
  Destroy c =
  mkCannonBall (transform c) (radius c) (elasticity c) (groundHeight c)
    (landed c) (startPos c) (startV c) (endPos c) (endV c) (controlPoint c)
    (startTime c) (endTime c) (airTime c) (showTrajectory c)
    (trajectoryAlpha c) (destroyDuration c) (destroyDuration c) (color c).
Proof. reflexivity. Qed.

(** *** What holds for every arithmetic *)

(** X14.  For every call [Update(deltaTime)] made while the vertical
    position is strictly past the contact threshold
    ([position.y > groundHeight - radius*scale]), the landing logic runs
    that frame: [landed] is true afterwards, a flag that was still false
    froze the trajectory snapshot at the state the call found, and the
    bounce or the rest branch executed. *)
Theorem landing_runs_strictly_under (now : Z) (dt : T) (c : CannonBall T) :
  (y (position (transform c)) >? threshold c) = true ->
  landing_ran now c (fst (Update now dt c)).
Proof.
  intros Hy. pose proof (s_ltb_asym _ _ Hy) as Hy'.
  unfold landing_ran.
  destruct (landed c) eqn:Hl; open_update c; subst;
    split_ifs; try congruence; repeat split; intros; auto; congruence.
Qed.


(** X15.  Once an [Update] call finds the projectile strictly under the
    threshold ([position.y > groundHeight - radius*scale]) with speed at
    most 10, that call sets velocity and acceleration to exactly zero and
    [position.y] to exactly [groundHeight - radius*scale], and after every
    further sequence of [Update] calls (any [deltaTime]), [Destroy] calls
    and [showTrajectory] writes they are still exactly that. *)
Theorem rest_state_is_idempotent (now : Z) (dt : T) (c : CannonBall T)
    (ops : list (Op T)) :
  (y (position (transform c)) >? threshold c) = true ->
  (GetLength (velocity (transform c)) >? lit 10) = false ->
  forallb (@host_op T) ops = true ->
  let c' := run ops (fst (Update now dt c)) in
  velocity (transform c') = Vzero
  /\ acceleration (transform c') = Vzero
  /\ y (position (transform c')) = threshold c.
Proof.
  intros Hy Hv Hops.
  destruct (Update_rest_snap now dt c Hy Hv) as [Hr Ht].
  destruct (run_at_rest ops _ Hops Hr) as [(H1 & H2 & H3) Ht'].
  cbv zeta. repeat split; congruence.
Qed.

(** Claim C6: for every sequence of calls on a projectile, the [landed]
    flag starts false, goes from false to true at most once, and never
    goes from true to false. *)
Theorem landed_set_at_most_once (h : HeaderDefaults T) (now : Z)
    (p v : Vector2 T) (predictedAirTime gh : T) (ops : list (Op T)) :
  let c0 := fst (new_CannonBall GRAVITY h now p v predictedAirTime gh) in
  landed c0 = false
  /\ (count_rises (map (@landed T) (trace ops c0)) <= 1)%nat
  /\ count_falls (map (@landed T) (trace ops c0)) = 0%nat.
Proof.
  cbv zeta. split; [reflexivity|].
  destruct (trace_landed_profile ops
              (fst (new_CannonBall GRAVITY h now p v predictedAirTime gh)))
    as [Hf Hr].
  split; [exact Hr | exact Hf].
Qed.

(** Claim C8: once [landed] is true, no later call of [Update] (whatever
    its [deltaTime], airborne again after a bounce or not), nor [Destroy],
    nor a write of [showTrajectory], changes [airTime], [endPos],
    [endVelocity] or [controlPoint]. *)
Theorem snapshot_frozen_after_landing (c : CannonBall T)
    (ops : list (Op T)) :
  landed c = true ->
  forallb (@host_op T) ops = true ->
  airTime (run ops c) = airTime c
  /\ endPos (run ops c) = endPos c
  /\ endV (run ops c) = endV c
  /\ controlPoint (run ops c) = controlPoint c.
Proof.
  intros Hc Hops.
  destruct (run_keeps_snapshot ops c Hops Hc) as [_ Hs].
  unfold snapshot in Hs. inversion Hs. auto.
Qed.

(** Claim C10: in every state reachable from the constructor through
    [Update], [Destroy], [UpdateTrajectory] and writes of [showTrajectory],
    the acceleration is exactly [{0, GRAVITY}] or exactly [{0, 0}]; its
    horizontal component is always zero. *)
Theorem acceleration_is_gravity_or_zero (h : HeaderDefaults T) (now : Z)
    (p v : Vector2 T) (predictedAirTime gh : T) (ops : list (Op T)) :
  let c := run ops (fst (new_CannonBall GRAVITY h now p v predictedAirTime gh)) in
  (acceleration (transform c) = mkVector2 (lit 0) GRAVITY
   \/ acceleration (transform c) = mkVector2 (lit 0) (lit 0))
  /\ x (acceleration (transform c)) = lit 0.
Proof.
  cbv zeta.
  assert (Hinv : forall l (c : CannonBall T),
             acceleration (transform c) = mkVector2 (lit 0) GRAVITY
             \/ acceleration (transform c) = mkVector2 (lit 0) (lit 0) ->
             acceleration (transform (run l c)) = mkVector2 (lit 0) GRAVITY
             \/ acceleration (transform (run l c)) = mkVector2 (lit 0) (lit 0)).
  { induction l as [|o l IH]; intros c Hc; cbn; [exact Hc|].
    apply IH. destruct (apply_op_acceleration o c) as [E|E]; rewrite E; auto. }
  match goal with |- (?A \/ ?B) /\ _ => assert (Hc : A \/ B) end.
  { apply Hinv. left. reflexivity. }
  split; [exact Hc|]. destruct Hc as [E|E]; rewrite E; reflexivity.
Qed.

End ControlFlow.

(** * Concrete runs on binary32 *)

Module OnBinary32.
Import Binary32 Scenario.
Local Open Scope scalar_scope.

(** A ball constructed on the contact plane: the call is made "at" the
    threshold, yet [landed] stays false, the transform is untouched
    (neither bounce nor rest) and the landing logic did not run. *)
Lemma landing_skipped_on_threshold :
  (threshold PIXEL_SCALE ball_on_threshold
     <=? y (position (transform ball_on_threshold))) = true
  /\ landed ball_on_threshold = false
  /\ landed (fst (Update32 (tick 1) frame ball_on_threshold)) = false
  /\ transform (fst (Update32 (tick 1) frame ball_on_threshold))
     = transform ball_on_threshold
  /\ ~ landing_ran PIXEL_SCALE lineIntersection TICKS_PER_MS (tick 1)
         ball_on_threshold
         (fst (Update32 (tick 1) frame ball_on_threshold)).
Proof.
  repeat split; try (vm_compute; reflexivity).
  intros [H _]. vm_compute in H. discriminate.
Qed.

(** The fast ball, one unit under the contact plane, lands on its first
    frame. *)
Lemma landing_runs_strictly_under_witness :
  (y (position (transform fast_ball_under))
     >? threshold PIXEL_SCALE fast_ball_under) = true
  /\ landing_ran PIXEL_SCALE lineIntersection TICKS_PER_MS (tick 1)
       fast_ball_under (fst (Update32 (tick 1) frame fast_ball_under)).
Proof.
  split; [vm_compute; reflexivity|].
  apply (landing_runs_strictly_under PIXEL_SCALE lineIntersection
           TICKS_PER_MS (tick 1) frame fast_ball_under).
  vm_compute; reflexivity.
Defined.


(** A ball constructed on the contact plane, gliding: the call finds it
    exactly at the threshold with speed 1, at most 10, yet velocity and
    acceleration are left as they were, not zero. *)
Lemma no_rest_snap_on_threshold :
  (threshold PIXEL_SCALE glider_on_threshold
     <=? y (position (transform glider_on_threshold))) = true
  /\ (GetLength (velocity (transform glider_on_threshold)) <=? lit 10) = true
  /\ velocity (transform (fst (Update32 (tick 1) frame glider_on_threshold)))
     = mkVector2 (of_Z 1) (of_Z 0)
  /\ velocity (transform (fst (Update32 (tick 1) frame glider_on_threshold)))
     <> Vzero
  /\ acceleration (transform (fst (Update32 (tick 1) frame glider_on_threshold)))
     = mkVector2 (of_Z 0) GRAVITY
  /\ acceleration (transform (fst (Update32 (tick 1) frame glider_on_threshold)))
     <> Vzero.
Proof.
  repeat split; try (vm_compute; reflexivity);
    intros H; vm_compute in H; discriminate.
Qed.

(** The slow ball rests after its first frame and through the later ones. *)
Lemma rest_state_is_idempotent_witness :
  (y (position (transform slow_ball_under))
     >? threshold PIXEL_SCALE slow_ball_under) = true
  /\ (GetLength (velocity (transform slow_ball_under)) >? lit 10) = false
  /\ velocity (transform (run32 later_frames rested_ball)) = Vzero
  /\ acceleration (transform (run32 later_frames rested_ball)) = Vzero
  /\ y (position (transform (run32 later_frames rested_ball)))
     = threshold PIXEL_SCALE slow_ball_under.
Proof.
  split; [vm_compute; reflexivity|].
  split; [vm_compute; reflexivity|].
  apply (rest_state_is_idempotent PIXEL_SCALE lineIntersection TICKS_PER_MS
           (tick 1) frame slow_ball_under later_frames);
    vm_compute; reflexivity.
Defined.

(** The snapshot of the bounced ball survives the later frames, in which
    it is airborne again. *)
Lemma snapshot_frozen_after_landing_witness :
  landed bounced_ball = true
  /\ airTime (run32 later_frames bounced_ball) = airTime bounced_ball
  /\ endPos (run32 later_frames bounced_ball) = endPos bounced_ball
  /\ endV (run32 later_frames bounced_ball) = endV bounced_ball
  /\ controlPoint (run32 later_frames bounced_ball)
     = controlPoint bounced_ball.
Proof.
  split; [vm_compute; reflexivity|].
  apply (snapshot_frozen_after_landing PIXEL_SCALE lineIntersection
           TICKS_PER_MS bounced_ball later_frames);
    vm_compute; reflexivity.
Defined.

(** Claim C5 at a failing input: [Destroy] with [destroyDuration = 1],
    then frames of 1/64 s.  After 32 frames (0.5 s) the alpha is 127 and
    after 64 frames (1.0 s) it is 0, as claimed; the timer is then 0, the
    fade still counts as running, and the 65th frame takes the timer to
    -1/64 and converts [255 * -1/64], truncated to -3, to [unsigned char]:
    a value that does not fit, so after 1.015625 s the alpha is not 0 (it
    is 253 when the low eight bits are kept), and it stays so. *)
Lemma destroy_fade_overshoots :
  destroyDuration fading_ball = of_Z 1
  /\ destroyTimer fading_ball = of_Z 1
  /\ a (color (faded_ball 32)) = 127%Z
  /\ destroyTimer (faded_ball 64) = of_Z 0
  /\ a (color (faded_ball 64)) = 0%Z
  /\ destroyTimer (faded_ball 65) = dec (-1) 64
  /\ s_to_int (lit 255 * (destroyTimer (faded_ball 65)
                          / destroyDuration (faded_ball 65))) = (-3)%Z
  /\ a (color (faded_ball 65)) = 253%Z
  /\ a (color (faded_ball 65)) <> 0%Z
  /\ a (color (faded_ball 66)) = 253%Z.
Proof.
  repeat split; try (vm_compute; reflexivity).
  intros H; vm_compute in H; discriminate.
Qed.

(** The flag profile of a ball dropped from just above the contact plane:
    two frames in the air, landing on the third, airborne again after the
    bounce; [landed] rises once and never falls. *)
Example landed_profile_of_a_drop :
  map (@landed float32)
      (trace PIXEL_SCALE lineIntersection TICKS_PER_MS (steady_frames 4)
             (spawn 0 98 0 50))
  = [false; false; false; true; true]
  /\ count_rises [false; false; false; true; true] = 1%nat
  /\ count_falls [false; false; false; true; true] = 0%nat
  /\ count_rises [false; true; false; true] = 2%nat
  /\ count_falls [false; true; false; true] = 1%nat.
Proof. repeat split; vm_compute; reflexivity. Qed.

(** Both values of the acceleration occur: gravity after a bounce, zero
    after the rest snap. *)
Example acceleration_values :
  acceleration (transform bounced_ball) = mkVector2 (of_Z 0) GRAVITY
  /\ acceleration (transform rested_ball) = Vzero.
Proof. repeat split; vm_compute; reflexivity. Qed.

(** The bounce of the fast ball in binary32: (0, 50) becomes (0, -25), and
    the ball is put 0.01 above the contact plane. *)
Example fast_ball_bounces :
  velocity (transform bounced_ball) = mkVector2 (of_Z 0) (of_Z (-25))
  /\ y (position (transform bounced_ball)) = of_Z 99 - dec 1 100
  /\ landed bounced_ball = true.
Proof. repeat split; vm_compute; reflexivity. Qed.

End OnBinary32.

(** * Exact arithmetic: what the formulas compute when rounding is ignored *)

Section OverReals.

Import Exact.
Local Open Scope R_scope.

Variable GRAVITY PIXEL_SCALE AIR_DENSITY SPHERE_DRAG_COEFF : R.
Variable LineIntersection :
  Vector2 R -> Vector2 R -> Vector2 R -> Vector2 R -> Vector2 R.
Variable TICKS_PER_MS : Z.

Local Abbreviation Update := (Update PIXEL_SCALE LineIntersection TICKS_PER_MS).
Local Abbreviation threshold := (threshold PIXEL_SCALE).
Local Abbreviation run := (run PIXEL_SCALE LineIntersection TICKS_PER_MS).
Local Abbreviation trace := (trace PIXEL_SCALE LineIntersection TICKS_PER_MS).
Local Abbreviation apply_op :=
  (apply_op PIXEL_SCALE LineIntersection TICKS_PER_MS).
Local Abbreviation ComputeDrag := (ComputeDrag AIR_DENSITY SPHERE_DRAG_COEFF).

Lemma Rltb_true (u v : R) : Rltb u v = true <-> u < v.
Proof. unfold Rltb. destruct (Rlt_dec u v); split; auto; discriminate. Qed.

Lemma Rltb_false (u v : R) : Rltb u v = false <-> v <= u.
Proof.
  unfold Rltb. destruct (Rlt_dec u v); split; auto; try discriminate; lra.
Qed.

Lemma GetLength_nonneg (v : Vector2 R) : 0 <= GetLength v.
Proof. apply sqrt_pos. Qed.

Lemma GetLength_vertical (s : R) :
  0 <= s -> GetLength (mkVector2 0 s) = s.
Proof.
  intros Hs. unfold GetLength. cbn.
  replace (0 * 0 + s * s) with (s * s) by ring. now apply sqrt_square.
Qed.

Lemma GetLength_Vscale (v : Vector2 R) (k : R) :
  0 <= k -> GetLength (Vscale v k) = GetLength v * k.
Proof.
  intros Hk. unfold GetLength, Vscale. cbn.
  replace (x v * k * (x v * k) + y v * k * (y v * k))
    with ((x v * x v + y v * y v) * (k * k)) by ring.
  rewrite sqrt_mult_alt by nra.
  now rewrite (sqrt_square k Hk).
Qed.

Lemma GetLength_flip (v : Vector2 R) :
  GetLength (set_y v (y v * lit (-1))) = GetLength v.
Proof.
  unfold GetLength, set_y. cbn. f_equal. ring.
Qed.

Lemma SetLength_Vscale (v : Vector2 R) (len : R) :
  GetLength v <> 0 -> SetLength v len = Vscale v (len / GetLength v).
Proof.
  intros Hv. unfold SetLength, Vscale. cbn. f_equal; field; exact Hv.
Qed.

(** The velocity the bounce leaves: the old one with [y] negated, times
    the elasticity. *)
Lemma bounce_velocity (c : CannonBall R) :
  GetLength (velocity (transform c)) <> 0 ->
  velocity (transform (bounce PIXEL_SCALE c)) =
  Vscale (set_y (velocity (transform c))
                (y (velocity (transform c)) * lit (-1)))
         (elasticity c).
Proof.
  intros Hv. unfold bounce. cbn [transform set_transform velocity set_velocity
    set_position].
  rewrite GetLength_flip. rewrite SetLength_Vscale by (now rewrite GetLength_flip).
  rewrite GetLength_flip. f_equal. cbn. field. exact Hv.
Qed.

(** In exact arithmetic: for every [Update] call that takes the bounce
    branch (projectile strictly past the threshold, speed strictly greater
    than 10), with an elasticity that is not negative, the speed after the
    call is the speed before times [elasticity], the vertical velocity is
    the old one negated and scaled, and [position.y] is the contact
    threshold minus 0.01.  (On binary32 the speeds differ by rounding.) *)
Lemma exact_bounce_scales_speed (now : Z) (dt : R)
    (c : CannonBall R) :
  threshold c < y (position (transform c)) ->
  10 < GetLength (velocity (transform c)) ->
  0 <= elasticity c ->
  let c' := fst (Update now dt c) in
  GetLength (velocity (transform c'))
    = GetLength (velocity (transform c)) * elasticity c
  /\ x (velocity (transform c')) = x (velocity (transform c)) * elasticity c
  /\ y (velocity (transform c')) = - (y (velocity (transform c)) * elasticity c)
  /\ (0 < elasticity c ->
      (0 < y (velocity (transform c)) -> y (velocity (transform c')) < 0)
      /\ (y (velocity (transform c)) < 0 -> 0 < y (velocity (transform c'))))
  /\ y (position (transform c')) = threshold c - 1 / 100.
Proof.
  intros Hy Hv He. cbv zeta.
  rewrite (Update_under_transform PIXEL_SCALE LineIntersection TICKS_PER_MS
             now dt c) by (apply Rltb_true; exact Hy).
  replace (s_ltb (lit 10) (GetLength (velocity (transform c)))) with true
    by (symmetry; apply Rltb_true; exact Hv).
  assert (Hne : GetLength (velocity (transform c)) <> 0) by lra.
  rewrite (bounce_velocity c Hne).
  rewrite GetLength_Vscale by exact He. rewrite GetLength_flip.
  cbn. repeat split; try lra; intros; nra.
Qed.

(** *** The destroy fade *)

Lemma Rleb_true (u v : R) : Rleb u v = true <-> u <= v.
Proof. unfold Rleb. destruct (Rle_dec u v); split; auto; discriminate. Qed.

Lemma Rtrunc_floor (u : R) (z : Z) :
  0 <= u -> IZR z <= u < IZR z + 1 -> Rtrunc u = z.
Proof.
  intros H0 Hz. unfold Rtrunc. destruct (Rle_dec 0 u); [|contradiction].
  symmetry. apply Int_part_spec. lra.
Qed.

Lemma run_frames_cons (now : Z) (dt : R) (fs : list (Z * R))
    (c : CannonBall R) :
  run (frames ((now, dt) :: fs)) c = run (frames fs) (fst (Update now dt c)).
Proof. reflexivity. Qed.

(** While the countdown has not passed zero, the frames take their
    cumulative time off the timer and the alpha follows it. *)
Lemma fade_runs (fs : list (Z * R)) :
  forall c : CannonBall R,
    destroyDuration c = 1 ->
    Forall (fun f => 0 <= snd f) fs -> fs <> [] ->
    destroyTimer c <= 1 -> elapsed fs <= destroyTimer c ->
    destroyTimer (run (frames fs) c) = destroyTimer c - elapsed fs
    /\ a (color (run (frames fs) c)) =
         to_uchar (255 * ((destroyTimer c - elapsed fs) / 1)).
Proof.
  induction fs as [|[now dt] fs IH]; intros c Hd Hfs Hne Ht Hs;
    [congruence|].
  inversion Hfs as [|f l Hdt Hfs']; subst. cbn [snd] in Hdt.
  change (dt + elapsed fs <= destroyTimer c) in Hs.
  assert (Hel : 0 <= elapsed fs).
  { clear -Hfs'. induction Hfs' as [|f l Hf Hl IHl]; [cbn; lra|].
    change (0 <= snd f + elapsed l). lra. }
  destruct (Update_destroy_fade PIXEL_SCALE LineIntersection TICKS_PER_MS
              now dt c) as (Ud & Ut & Ua).
  replace (s_leb (lit 0) (destroyTimer c) && s_leb (destroyTimer c)
             (destroyDuration c)) with true in Ut, Ua.
  2:{ symmetry. apply andb_true_iff. split; apply Rleb_true; cbn; lra. }
  rewrite run_frames_cons.
  destruct fs as [|f fs'].
  - change (elapsed [(now, dt)]) with (dt + 0).
    change (run (frames []) (fst (Update now dt c)))
      with (fst (Update now dt c)).
    rewrite Ut, Ua, Hd. cbn. split; [lra|].
    f_equal. f_equal. lra.
  - change (elapsed ((now, dt) :: f :: fs')) with (dt + elapsed (f :: fs')).
    assert (Ut' : destroyTimer (fst (Update now dt c)) = destroyTimer c - dt)
      by exact Ut.
    destruct (IH (fst (Update now dt c))) as [It Ia].
    + congruence.
    + exact Hfs'.
    + discriminate.
    + rewrite Ut'. lra.
    + rewrite Ut'. lra.
    + rewrite It, Ia, Ut'. split; [lra|].
      f_equal. f_equal. lra.
Qed.

(** With [destroyDuration = 1], after [Destroy] and frames whose
    non-negative [deltaTime] values sum to 0.5 the alpha is 127. *)
Lemma fade_half_way (c : CannonBall R) (fs : list (Z * R)) :
  destroyDuration c = 1 ->
  Forall (fun f => 0 <= snd f) fs -> elapsed fs = 1 / 2 ->
  a (color (run (frames fs) (Destroy c))) = 127%Z.
Proof.
  intros Hd Hfs Hs.
  assert (Hne : fs <> []) by (intros E; subst; cbn in Hs; lra).
  destruct (fade_runs fs (Destroy c)) as [_ Ha]; auto;
    try (destruct c; cbn in *; lra).
  rewrite Ha. replace (destroyTimer (Destroy c)) with 1
    by (destruct c; cbn in *; lra).
  rewrite Hs. unfold to_uchar. cbn.
  rewrite (Rtrunc_floor (255 * ((1 - 1 / 2) / 1)) 127); [reflexivity|lra|lra].
Qed.

(** *** The trajectory fade *)

Lemma clamp_unit (v : R) : 0 <= clamp v (lit 0) (lit 1) <= 1.
Proof.
  unfold clamp, lit. cbn. unfold Rltb.
  destruct (Rlt_dec v 0); [lra|]. destruct (Rlt_dec 1 v); lra.
Qed.

Lemma fadeTrajectory_unit (dt : R) (c : CannonBall R) :
  0 <= trajectoryAlpha c <= 1 ->
  0 <= trajectoryAlpha (fadeTrajectory dt c) <= 1.
Proof.
  intros Hc. unfold fadeTrajectory.
  destruct (showTrajectory c && s_ltb (trajectoryAlpha c) (lit 1)).
  - destruct c; cbn. apply clamp_unit.
  - destruct (negb (showTrajectory c) && s_ltb (lit 0) (trajectoryAlpha c)).
    + destruct c; cbn. apply clamp_unit.
    + exact Hc.
Qed.

Lemma fadeTrajectory_rate (dt : R) (c : CannonBall R) :
  0 <= trajectoryAlpha c <= 1 -> 0 <= dt ->
  trajectoryAlpha (fadeTrajectory dt c) =
  if showTrajectory c then Rmin 1 (trajectoryAlpha c + dt)
  else Rmax 0 (trajectoryAlpha c - dt).
Proof.
  intros Hc Hdt. unfold fadeTrajectory, clamp, lit.
  destruct c; cbn in *. unfold Rltb, Rmin, Rmax.
  destruct showTrajectory0; cbn;
    repeat (match goal with
            | |- context [Rlt_dec ?u ?v] => destruct (Rlt_dec u v)
            | |- context [Rle_dec ?u ?v] => destruct (Rle_dec u v)
            end; cbn); lra.
Qed.

Lemma apply_op_trajectoryAlpha_unit (o : Op R) (c : CannonBall R) :
  0 <= trajectoryAlpha c <= 1 -> 0 <= trajectoryAlpha (apply_op o c) <= 1.
Proof.
  intros Hc. destruct o; cbn.
  - rewrite Update_trajectoryAlpha. now apply fadeTrajectory_unit.
  - destruct c; exact Hc.
  - destruct c; exact Hc.
  - destruct c; exact Hc.
Qed.

(** In exact arithmetic: for every sequence of calls, a [trajectoryAlpha]
    that starts within [0, 1] stays within [0, 1]; with a non-negative
    [deltaTime], one [Update] moves it by [deltaTime] (rate 1 per second)
    toward 1 when [showTrajectory] is true and toward 0 when it is false,
    clamped to [0, 1].  (On binary32 a small [deltaTime] is absorbed by
    the rounding of the sum.) *)
Lemma exact_trajectoryAlpha_rate (c : CannonBall R)
    (ops : list (Op R)) :
  0 <= trajectoryAlpha c <= 1 ->
  Forall (fun s => 0 <= trajectoryAlpha s <= 1) (trace ops c)
  /\ (forall now dt, 0 <= dt ->
        trajectoryAlpha (fst (Update now dt c)) =
        if showTrajectory c then Rmin 1 (trajectoryAlpha c + dt)
        else Rmax 0 (trajectoryAlpha c - dt)).
Proof.
  intros Hc. split.
  - revert c Hc. induction ops as [|o ops IH]; intros c Hc; cbn.
    + constructor; [exact Hc | constructor].
    + constructor; [exact Hc|].
      apply IH. now apply apply_op_trajectoryAlpha_unit.
  - intros now dt Hdt. rewrite Update_trajectoryAlpha.
    now apply fadeTrajectory_rate.
Qed.

Lemma GetLength_horizontal (s : R) :
  0 <= s -> GetLength (mkVector2 s 0) = s.
Proof.
  intros Hs. unfold GetLength. cbn.
  replace (s * s + 0 * 0) with (s * s) by ring. now apply sqrt_square.
Qed.

(** In exact arithmetic: [ComputeDrag] returns
    [-0.5 * airDensity * dragCoefficient * pi * radius^2 * |velocity| * velocity];
    for the velocity (0,0) it returns the zero vector, and for a velocity
    (s,0) with [s > 0] (positive air density and drag coefficient, non-zero
    radius) a vector along the negative x axis whose magnitude is a
    constant times [s^2].  (On binary32 the products underflow and
    overflow.) *)
Lemma exact_ComputeDrag_is_quadratic (c : CannonBall R) :
  let v := velocity (transform c) in
  let k := 1 / 2 * AIR_DENSITY * SPHERE_DRAG_COEFF * PI * radius c ^ 2 in
  ComputeDrag c = mkVector2 (- k * GetLength v * x v) (- k * GetLength v * y v)
  /\ (v = mkVector2 0 0 -> ComputeDrag c = mkVector2 0 0)
  /\ (forall s, 0 < s -> v = mkVector2 s 0 ->
        0 < AIR_DENSITY -> 0 < SPHERE_DRAG_COEFF -> radius c <> 0 ->
        x (ComputeDrag c) < 0
        /\ y (ComputeDrag c) = 0
        /\ GetLength (ComputeDrag c) = k * s ^ 2).
Proof.
  cbv zeta.
  assert (Hf : ComputeDrag c =
    mkVector2
      (- (1 / 2 * AIR_DENSITY * SPHERE_DRAG_COEFF * PI * radius c ^ 2)
       * GetLength (velocity (transform c)) * x (velocity (transform c)))
      (- (1 / 2 * AIR_DENSITY * SPHERE_DRAG_COEFF * PI * radius c ^ 2)
       * GetLength (velocity (transform c)) * y (velocity (transform c)))).
  { unfold ComputeDrag, Vscale, s_opp, sqpow, dec, lit. cbn.
    f_equal; ring. }
  split; [exact Hf|]. split.
  - intros Hv. rewrite Hf, Hv. cbn. f_equal; ring.
  - intros s Hs Hv Ha Hd Hr. rewrite Hf, Hv.
    rewrite (GetLength_horizontal s (Rlt_le _ _ Hs)).
    pose proof PI_RGT_0 as Hpi.
    assert (Hr2 : 0 < radius c ^ 2).
    { pose proof (pow2_ge_0 (radius c)) as H0.
      pose proof (pow_nonzero (radius c) 2 Hr) as H1. lra. }
    assert (Hk : 0 < 1 / 2 * AIR_DENSITY * SPHERE_DRAG_COEFF * PI * radius c ^ 2).
    { apply Rmult_lt_0_compat; [|exact Hr2].
      apply Rmult_lt_0_compat; [|exact Hpi].
      apply Rmult_lt_0_compat; [|exact Hd].
      apply Rmult_lt_0_compat; [lra | exact Ha]. }
    set (k := 1 / 2 * AIR_DENSITY * SPHERE_DRAG_COEFF * PI * radius c ^ 2) in *.
    assert (Hks : 0 < k * (s * s)).
    { apply Rmult_lt_0_compat; [exact Hk|]. now apply Rmult_lt_0_compat. }
    cbn [x y]. split; [lra|]. split; [ring|].
    unfold GetLength. cbn.
    replace (- k * s * s * (- k * s * s) + - k * s * 0 * (- k * s * 0))
      with (k * s ^ 2 * (k * s ^ 2)) by ring.
    apply sqrt_square. replace (k * s ^ 2) with (k * (s * s)) by ring. lra.
Qed.

End OverReals.

(** * Concrete values in exact arithmetic *)

Module OnReals.
Import Exact ScenarioR.
Local Open Scope R_scope.

(** The falling ball bounces: its vertical velocity 20 becomes -10. *)
Example exact_bounce_of_the_falling_ball :
  y (velocity (transform (fst (UpdateR 0 (1 / 64) falling_ball))))
  = - (20 * (1 / 2)).
Proof.
  refine (proj1 (proj2 (proj2
    (exact_bounce_scales_speed PIXEL_SCALE lineIntersection
       TICKS_PER_MS 0%Z (1 / 64) falling_ball _ _ _)))).
  - unfold PIXEL_SCALE. cbn. lra.
  - cbn [falling_ball spawn new_CannonBall fst transform velocity].
    rewrite (GetLength_vertical 20) by lra.
    lra.
  - cbn. lra.
Defined.

(** The trajectory fade of the flying ball stays within [0, 1]. *)
Example exact_fade_of_the_flying_ball :
  Forall (fun s => 0 <= trajectoryAlpha s <= 1)
         (trace PIXEL_SCALE lineIntersection TICKS_PER_MS show_frames
                flying_ball).
Proof.
  refine (proj1 (exact_trajectoryAlpha_rate PIXEL_SCALE
                   lineIntersection TICKS_PER_MS flying_ball show_frames _)).
  cbn. lra.
Defined.

(** The drag on the flying ball, which moves along +x, points along -x. *)
Example exact_drag_of_the_flying_ball :
  x (ComputeDrag AIR_DENSITY SPHERE_DRAG_COEFF flying_ball) < 0.
Proof.
  refine (proj1 (proj2 (proj2
    (exact_ComputeDrag_is_quadratic AIR_DENSITY SPHERE_DRAG_COEFF flying_ball))
    2 _ _ _ _ _)).
  - lra.
  - reflexivity.
  - unfold AIR_DENSITY. lra.
  - unfold SPHERE_DRAG_COEFF. lra.
  - cbn. intros H. lra.
Defined.

End OnReals.

(** * Further properties of the control flow, for every [Scalar] *)

(** Case analysis on the conditions of the goal, innermost first, without
    simplifying anything. *)
Ltac destruct_ifs :=
  repeat match goal with
         | |- context [if ?c then _ else _] =>
             lazymatch c with
             | context [if _ then _ else _] => fail
             | _ => destruct c eqn:?
             end
         end.

(** Closes a case in which one condition was found both true and false. *)
Ltac clash :=
  match goal with
  | H : _ = true, E : ?c = false |- _ =>
      assert (c = true) by exact H; congruence
  | H : _ = false, E : ?c = true |- _ =>
      assert (c = false) by exact H; congruence
  end.

Section MoreControlFlow.

Context {T : Type} {ST : Scalar T}.
Variable GRAVITY PIXEL_SCALE : T.
Variable LineIntersection :
  Vector2 T -> Vector2 T -> Vector2 T -> Vector2 T -> Vector2 T.
Variable TICKS_PER_MS : Z.
Local Open Scope scalar_scope.

Local Abbreviation Update := (Update PIXEL_SCALE LineIntersection TICKS_PER_MS).
Local Abbreviation UpdateTrajectory :=
  (UpdateTrajectory LineIntersection TICKS_PER_MS).
Local Abbreviation threshold := (threshold PIXEL_SCALE).
Local Abbreviation apply_op :=
  (apply_op PIXEL_SCALE LineIntersection TICKS_PER_MS).
Local Abbreviation run := (run PIXEL_SCALE LineIntersection TICKS_PER_MS).

(** *** One call, phase by phase *)

Lemma Update_fst (now : Z) (dt : T) (c : CannonBall T) :
  fst (Update now dt c) =
  fadeDestroy dt (fst (physics PIXEL_SCALE LineIntersection TICKS_PER_MS
                         now dt (fadeTrajectory dt c))).
Proof.
  unfold Update.
  destruct (physics PIXEL_SCALE LineIntersection TICKS_PER_MS now dt
              (fadeTrajectory dt c)); reflexivity.
Qed.

Lemma Update_snd (now : Z) (dt : T) (c : CannonBall T) :
  snd (Update now dt c) =
  snd (physics PIXEL_SCALE LineIntersection TICKS_PER_MS now dt
         (fadeTrajectory dt c)).
Proof.
  unfold Update.
  destruct (physics PIXEL_SCALE LineIntersection TICKS_PER_MS now dt
              (fadeTrajectory dt c)); reflexivity.
Qed.

(** The trajectory fade writes [trajectoryAlpha] only. *)
Lemma fadeTrajectory_keeps (dt : T) (c : CannonBall T) :
  transform (fadeTrajectory dt c) = transform c
  /\ landed (fadeTrajectory dt c) = landed c
  /\ startPos (fadeTrajectory dt c) = startPos c
  /\ startV (fadeTrajectory dt c) = startV c
  /\ snapshot (fadeTrajectory dt c) = snapshot c
  /\ threshold (fadeTrajectory dt c) = threshold c
  /\ launch_data (fadeTrajectory dt c) = launch_data c
  /\ destroyTimer (fadeTrajectory dt c) = destroyTimer c
  /\ destroyDuration (fadeTrajectory dt c) = destroyDuration c
  /\ color (fadeTrajectory dt c) = color c.
Proof.
  unfold fadeTrajectory. destruct_ifs; destruct c; repeat split; reflexivity.
Qed.

(** The destroy fade writes [destroyTimer] and the alpha only. *)
Lemma fadeDestroy_keeps (dt : T) (c : CannonBall T) :
  physical (fadeDestroy dt c) = physical c
  /\ launch_data (fadeDestroy dt c) = launch_data c.
Proof.
  unfold fadeDestroy. destruct_ifs;
    destruct c as [? ? ? ? ? ? ? ? ? ? ? ? ? ? ? ? ? [? ? ? ?]];
    split; reflexivity.
Qed.

Lemma physical_fields (c1 c2 : CannonBall T) :
  physical c1 = physical c2 ->
  transform c1 = transform c2
  /\ landed c1 = landed c2
  /\ snapshot c1 = snapshot c2
  /\ threshold c1 = threshold c2
  /\ endTime c1 = endTime c2
  /\ endPos c1 = endPos c2
  /\ endV c1 = endV c2
  /\ controlPoint c1 = controlPoint c2
  /\ trajectoryAlpha c1 = trajectoryAlpha c2.
Proof.
  destruct c1, c2. unfold physical. cbn. intros H. inversion H; subst.
  repeat split; reflexivity.
Qed.

Lemma fadeDestroy_stopped (dt : T) (c : CannonBall T) :
  fade_running c = false -> fadeDestroy dt c = c.
Proof.
  unfold fade_running, fadeDestroy. intros H. rewrite H. reflexivity.
Qed.

Lemma physics_keeps_fade (now : Z) (dt : T) (c : CannonBall T) :
  destroyTimer (fst (physics PIXEL_SCALE LineIntersection TICKS_PER_MS
                       now dt c)) = destroyTimer c
  /\ destroyDuration (fst (physics PIXEL_SCALE LineIntersection TICKS_PER_MS
                             now dt c)) = destroyDuration c
  /\ color (fst (physics PIXEL_SCALE LineIntersection TICKS_PER_MS
                   now dt c)) = color c.
Proof.
  unfold physics, firstContact. destruct_ifs; destruct c;
    repeat split; reflexivity.
Qed.

Lemma physics_launch_data (now : Z) (dt : T) (c : CannonBall T) :
  launch_data (fst (physics PIXEL_SCALE LineIntersection TICKS_PER_MS
                      now dt c)) = launch_data c.
Proof.
  unfold physics, firstContact. destruct_ifs; destruct c; reflexivity.
Qed.

Lemma physics_cong (now : Z) (dt : T) (c1 c2 : CannonBall T) :
  physical c1 = physical c2 ->
  physical (fst (physics PIXEL_SCALE LineIntersection TICKS_PER_MS now dt c1))
  = physical (fst (physics PIXEL_SCALE LineIntersection TICKS_PER_MS now dt c2))
  /\ snd (physics PIXEL_SCALE LineIntersection TICKS_PER_MS now dt c1)
     = snd (physics PIXEL_SCALE LineIntersection TICKS_PER_MS now dt c2).
Proof.
  intros H. destruct c1, c2. unfold physical in H. cbn in H.
  inversion H; subst; clear H.
  unfold physics, firstContact, threshold. cbn.
  destruct_ifs; try clash; split; reflexivity.
Qed.

Lemma fadeTrajectory_cong (dt : T) (c1 c2 : CannonBall T) :
  physical c1 = physical c2 ->
  physical (fadeTrajectory dt c1) = physical (fadeTrajectory dt c2).
Proof.
  intros H. destruct c1, c2. unfold physical in H. cbn in H.
  inversion H; subst; clear H.
  unfold fadeTrajectory. cbn. destruct_ifs; try clash; reflexivity.
Qed.

Lemma physics_landed (now : Z) (dt : T) (c : CannonBall T) :
  landed (fst (physics PIXEL_SCALE LineIntersection TICKS_PER_MS now dt c)) =
  landed c || (y (position (transform c)) >? threshold c).
Proof.
  unfold physics, firstContact.
  destruct (y (position (transform c)) >? threshold c) eqn:Hy.
  - rewrite (s_ltb_asym _ _ Hy).
    destruct c as [t0 ra el gh la sp sv ep ev cp st et at_ sh al ti du co].
    destruct la; cbn [landed negb]; destruct_ifs; reflexivity.
  - destruct c as [t0 ra el gh la sp sv ep ev cp st et at_ sh al ti du co].
    destruct la; cbn [landed negb]; destruct_ifs; reflexivity.
Qed.

(** The airborne branch, on an opened cannonball. *)
Lemma physics_above (now : Z) (dt : T) (c : CannonBall T) :
  (y (position (transform c)) <? threshold c) = true ->
  let p := physics PIXEL_SCALE LineIntersection TICKS_PER_MS now dt c in
  transform (fst p) = Transform_Update dt (transform c)
  /\ snd p = []
  /\ landed (fst p) = landed c
  /\ (landed c = false ->
      endTime (fst p) = now
      /\ endPos (fst p) = position (transform (fst p))
      /\ endV (fst p) = velocity (transform (fst p))
      /\ controlPoint (fst p) =
         LineIntersection (startPos c) (startV c)
           (position (transform (fst p))) (Vneg (velocity (transform (fst p))))).
Proof.
  intros H. cbv zeta. unfold physics. rewrite H.
  destruct c as [t0 ra el gh la sp sv ep ev cp st et at_ sh al ti du co].
  cbn. destruct la; cbn; repeat split; intros;
    try reflexivity; discriminate.
Qed.

Lemma physics_neither (now : Z) (dt : T) (c : CannonBall T) :
  (y (position (transform c)) <? threshold c) = false ->
  (y (position (transform c)) >? threshold c) = false ->
  physics PIXEL_SCALE LineIntersection TICKS_PER_MS now dt c = (c, []).
Proof. intros H1 H2. unfold physics. rewrite H1, H2. reflexivity. Qed.

Lemma launch_data_fields (c1 c2 : CannonBall T) :
  launch_data c1 = launch_data c2 ->
  startPos c1 = startPos c2 /\ startV c1 = startV c2
  /\ startTime c1 = startTime c2
  /\ groundHeight c1 = groundHeight c2
  /\ radius c1 = radius c2 /\ elasticity c1 = elasticity c2
  /\ destroyDuration c1 = destroyDuration c2
  /\ r (color c1) = r (color c2) /\ g (color c1) = g (color c2)
  /\ b (color c1) = b (color c2).
Proof.
  destruct c1, c2. unfold launch_data. cbn. intros H. inversion H; subst.
  repeat split; reflexivity.
Qed.

Lemma apply_op_launch_data_Update (now : Z) (dt : T) (c : CannonBall T) :
  launch_data (fst (Update now dt c)) = launch_data c.
Proof.
  rewrite Update_fst.
  destruct (fadeDestroy_keeps dt
              (fst (physics PIXEL_SCALE LineIntersection TICKS_PER_MS now
                      dt (fadeTrajectory dt c)))) as [_ D].
  rewrite D, physics_launch_data.
  apply (fadeTrajectory_keeps dt c).
Qed.

Lemma Update_keeps_showTrajectory (now : Z) (dt : T) (c : CannonBall T) :
  showTrajectory (fst (Update now dt c)) = showTrajectory c.
Proof.
  rewrite Update_fst.
  transitivity (showTrajectory
                  (fst (physics PIXEL_SCALE LineIntersection TICKS_PER_MS
                          now dt (fadeTrajectory dt c)))).
  { generalize (fst (physics PIXEL_SCALE LineIntersection TICKS_PER_MS
                       now dt (fadeTrajectory dt c))).
    intros u. unfold fadeDestroy. destruct_ifs; destruct u; reflexivity. }
  transitivity (showTrajectory (fadeTrajectory dt c)).
  { generalize (fadeTrajectory dt c). intros u.
    unfold physics, firstContact. destruct_ifs; destruct u; reflexivity. }
  unfold fadeTrajectory. destruct_ifs; destruct c; reflexivity.
Qed.

Lemma Update_keeps_threshold (now : Z) (dt : T) (c : CannonBall T) :
  threshold (fst (Update now dt c)) = threshold c.
Proof.
  pose proof (apply_op_launch_data_Update now dt c) as H.
  apply launch_data_fields in H.
  destruct H as (_ & _ & _ & H4 & H5 & _).
  unfold threshold. rewrite H4, H5. reflexivity.
Qed.

Lemma Update_airborne (now : Z) (dt : T) (c : CannonBall T) :
  (y (position (transform c)) <? threshold c) = true ->
  transform (fst (Update now dt c)) = Transform_Update dt (transform c)
  /\ snd (Update now dt c) = [].
Proof.
  intros Hy. rewrite Update_fst, Update_snd.
  destruct (fadeTrajectory_keeps dt c) as (F1 & _ & _ & _ & _ & F6 & _).
  assert (Hy0 : (y (position (transform (fadeTrajectory dt c)))
                 <? threshold (fadeTrajectory dt c)) = true)
    by (rewrite F1, F6; exact Hy).
  destruct (physics_above now dt (fadeTrajectory dt c) Hy0)
    as (P1 & P2 & _).
  destruct (fadeDestroy_keeps dt
              (fst (physics PIXEL_SCALE LineIntersection TICKS_PER_MS now dt
                      (fadeTrajectory dt c)))) as [D _].
  apply physical_fields in D. destruct D as (D1 & _).
  rewrite D1, P1, P2, F1. split; reflexivity.
Qed.

(** X1.  After a call of [Update] the [landed] flag is set exactly when it
    was set before or the call found the projectile strictly under the
    contact threshold. *)
Theorem landed_after_Update (now : Z) (dt : T) (c : CannonBall T) :
  landed (fst (Update now dt c)) =
  landed c || (y (position (transform c)) >? threshold c).
Proof.
  rewrite Update_fst.
  destruct (fadeDestroy_keeps dt
              (fst (physics PIXEL_SCALE LineIntersection TICKS_PER_MS now dt
                      (fadeTrajectory dt c)))) as [D _].
  apply physical_fields in D. destruct D as (_ & D2 & _).
  destruct (fadeTrajectory_keeps dt c) as (F1 & F2 & _ & _ & _ & F6 & _).
  rewrite D2, physics_landed, F1, F2, F6. reflexivity.
Qed.

(** X2.  A call of [Update] that finds the projectile strictly above the
    threshold integrates the transform once, issues no spawner request and
    leaves [landed] alone; on a ball that has not landed yet it makes the
    snapshot follow the flight: end time, end position and end velocity
    are the clock reading and the transform the call leaves. *)
Theorem airborne_step (now : Z) (dt : T) (c : CannonBall T) :
  (y (position (transform c)) <? threshold c) = true ->
  let c' := fst (Update now dt c) in
  transform c' = Transform_Update dt (transform c)
  /\ snd (Update now dt c) = []
  /\ landed c' = landed c
  /\ (landed c = false ->
      endTime c' = now
      /\ endPos c' = position (transform c')
      /\ endV c' = velocity (transform c')
      /\ controlPoint c' =
         LineIntersection (startPos c) (startV c) (position (transform c'))
                          (Vneg (velocity (transform c')))).
Proof.
  intros Hy. cbv zeta. rewrite Update_fst, Update_snd.
  destruct (fadeTrajectory_keeps dt c)
    as (F1 & F2 & F3 & F4 & _ & F6 & _).
  assert (Hy0 : (y (position (transform (fadeTrajectory dt c)))
                 <? threshold (fadeTrajectory dt c)) = true)
    by (rewrite F1, F6; exact Hy).
  destruct (physics_above now dt (fadeTrajectory dt c) Hy0)
    as (P1 & P2 & P3 & P4).
  destruct (fadeDestroy_keeps dt
              (fst (physics PIXEL_SCALE LineIntersection TICKS_PER_MS now dt
                      (fadeTrajectory dt c)))) as [D _].
  apply physical_fields in D.
  destruct D as (D1 & D2 & _ & _ & D5 & D6 & D7 & D8 & _).
  rewrite D1, D2, D5, D6, D7, D8, P1, P2, P3, F1, F2.
  split; [reflexivity|]. split; [reflexivity|]. split; [reflexivity|].
  intros Hl. rewrite <- F2 in Hl.
  destruct (P4 Hl) as (Q1 & Q2 & Q3 & Q4).
  rewrite P1, F1, ?F3, ?F4 in *. repeat split; assumption.
Qed.

(** A call that finds the height neither above nor under the threshold
    touches nothing but the two fades. *)
Lemma Update_incomparable (now : Z) (dt : T) (c : CannonBall T) :
  (y (position (transform c)) <? threshold c) = false ->
  (y (position (transform c)) >? threshold c) = false ->
  transform (fst (Update now dt c)) = transform c
  /\ landed (fst (Update now dt c)) = landed c
  /\ snapshot (fst (Update now dt c)) = snapshot c
  /\ threshold (fst (Update now dt c)) = threshold c
  /\ snd (Update now dt c) = [].
Proof.
  intros H1 H2. rewrite Update_fst, Update_snd.
  destruct (fadeTrajectory_keeps dt c)
    as (F1 & F2 & _ & _ & F5 & F6 & _).
  rewrite physics_neither by (rewrite F1, F6; assumption).
  cbn [fst snd].
  destruct (fadeDestroy_keeps dt (fadeTrajectory dt c)) as [D _].
  apply physical_fields in D.
  destruct D as (D1 & D2 & D3 & D4 & _).
  rewrite D1, D2, D3, D4, F1, F2, F5, F6. repeat split; reflexivity.
Qed.

Lemma host_op_on_plane (o : Op T) (c : CannonBall T) :
  host_op o = true ->
  y (position (transform c)) = threshold c ->
  transform (apply_op o c) = transform c
  /\ landed (apply_op o c) = landed c
  /\ snapshot (apply_op o c) = snapshot c
  /\ threshold (apply_op o c) = threshold c.
Proof.
  intros Ho Hy. destruct o; cbn in *; try discriminate.
  - destruct (Update_incomparable now deltaTime c) as (H1 & H2 & H3 & H4 & _);
      try (rewrite Hy; apply s_ltb_irrefl); auto.
  - destruct c; auto.
  - destruct c; auto.
Qed.

(** X3.  A projectile whose height equals the contact threshold exactly
    is frozen, whatever its velocity: through every sequence of [Update]
    and [Destroy] calls and [showTrajectory] writes its transform, its
    [landed] flag and its snapshot stay as they are, and no [Update] call
    issues a spawner request. *)
Theorem frozen_on_plane (c : CannonBall T) (ops : list (Op T)) :
  y (position (transform c)) = threshold c ->
  forallb (@host_op T) ops = true ->
  transform (run ops c) = transform c
  /\ landed (run ops c) = landed c
  /\ snapshot (run ops c) = snapshot c
  /\ (forall now dt, snd (Update now dt (run ops c)) = []).
Proof.
  intros Hy Hops.
  assert (H : transform (run ops c) = transform c
              /\ landed (run ops c) = landed c
              /\ snapshot (run ops c) = snapshot c
              /\ threshold (run ops c) = threshold c).
  { revert c Hy Hops. induction ops as [|o ops IH]; intros c Hy Hops; cbn in *.
    - auto.
    - apply andb_true_iff in Hops as [Ho Hops].
      destruct (host_op_on_plane o c Ho Hy) as (H1 & H2 & H3 & H4).
      destruct (IH (apply_op o c)) as (I1 & I2 & I3 & I4); auto.
      { rewrite H1, H4. exact Hy. }
      repeat split; congruence. }
  destruct H as (H1 & H2 & H3 & H4). repeat split; auto.
  intros now dt.
  apply (Update_incomparable now dt (run ops c));
    rewrite H1, H4, Hy; apply s_ltb_irrefl.
Qed.

Lemma apply_op_launch_data (o : Op T) (c : CannonBall T) :
  launch_data (apply_op o c) = launch_data c.
Proof.
  destruct o; cbn.
  - apply apply_op_launch_data_Update.
  - destruct c; reflexivity.
  - destruct c; reflexivity.
  - destruct c; reflexivity.
Qed.

(** X4.  What the constructor fixes stays fixed: after every sequence of
    calls ([UpdateTrajectory] included) the start position, start velocity
    and start time are the constructor's arguments and clock reading, the
    ground height is the constructor's, and radius, elasticity, destroy
    duration and the red, green and blue channels are the initial ones. *)
Theorem launch_data_is_immutable (h : HeaderDefaults T) (now : Z)
    (p v : Vector2 T) (predictedAirTime gh : T) (ops : list (Op T)) :
  let c := run ops (fst (new_CannonBall GRAVITY h now p v predictedAirTime gh)) in
  startPos c = p /\ startV c = v /\ startTime c = now
  /\ groundHeight c = gh
  /\ radius c = d_radius h /\ elasticity c = d_elasticity h
  /\ destroyDuration c = d_destroyDuration h
  /\ r (color c) = r (d_color h) /\ g (color c) = g (d_color h)
  /\ b (color c) = b (d_color h).
Proof.
  cbv zeta.
  assert (H : forall l (c : CannonBall T), launch_data (run l c) = launch_data c).
  { induction l as [|o l IH]; intros c; cbn; [reflexivity|].
    rewrite IH. apply apply_op_launch_data. }
  exact (launch_data_fields _ _
           (H ops (fst (new_CannonBall GRAVITY h now p v predictedAirTime gh)))).
Qed.

(** X5.  The destroy fade does not interfere with the physics: two
    cannonballs that differ only in destroy timer and colour are taken by
    the same [Update] call to states that again differ only there, and
    the call issues the same spawner requests for both. *)
Theorem physics_ignores_the_fade (now : Z) (dt : T) (c1 c2 : CannonBall T) :
  physical c1 = physical c2 ->
  physical (fst (Update now dt c1)) = physical (fst (Update now dt c2))
  /\ snd (Update now dt c1) = snd (Update now dt c2).
Proof.
  intros H. rewrite !Update_fst, !Update_snd.
  destruct (physics_cong now dt _ _ (fadeTrajectory_cong dt c1 c2 H))
    as [Hp Hs].
  split; [|exact Hs].
  etransitivity; [apply fadeDestroy_keeps|].
  etransitivity; [exact Hp|]. symmetry. apply fadeDestroy_keeps.
Qed.

Lemma no_destroy_keeps_stopped_fade (o : Op T) (c : CannonBall T) :
  no_destroy o = true -> fade_running c = false ->
  destroyTimer (apply_op o c) = destroyTimer c
  /\ destroyDuration (apply_op o c) = destroyDuration c
  /\ color (apply_op o c) = color c.
Proof.
  intros Ho Hf. destruct o; cbn in Ho |- *; try discriminate.
  - rewrite Update_fst.
    destruct (fadeTrajectory_keeps deltaTime c)
      as (_ & _ & _ & _ & _ & _ & _ & F8 & F9 & F10).
    destruct (physics_keeps_fade now deltaTime (fadeTrajectory deltaTime c))
      as (P1 & P2 & P3).
    rewrite fadeDestroy_stopped.
    + rewrite P1, P2, P3, F8, F9, F10. repeat split; reflexivity.
    + unfold fade_running in *. rewrite P1, P2, F8, F9. exact Hf.
  - destruct c; auto.
  - destruct c; auto.
Qed.

(** X6.  A destroy fade that is not running (timer below zero or above
    the duration) stays as it is until [Destroy] is called: every sequence
    of other calls leaves the destroy timer and the whole colour, alpha
    included, unchanged. *)
Theorem stopped_fade_stays_stopped (c : CannonBall T) (ops : list (Op T)) :
  fade_running c = false ->
  forallb (@no_destroy T) ops = true ->
  destroyTimer (run ops c) = destroyTimer c
  /\ color (run ops c) = color c
  /\ fade_running (run ops c) = false.
Proof.
  revert c. induction ops as [|o ops IH]; intros c Hf Hops; cbn in *.
  - auto.
  - apply andb_true_iff in Hops as [Ho Hops].
    destruct (no_destroy_keeps_stopped_fade o c Ho Hf) as (H1 & H2 & H3).
    assert (Hf' : fade_running (apply_op o c) = false).
    { unfold fade_running in *. rewrite H1, H2. exact Hf. }
    destruct (IH (apply_op o c) Hf' Hops) as (I1 & I2 & I3).
    repeat split; congruence.
Qed.

End MoreControlFlow.

(** * Further properties on binary32 *)

Module MoreOnBinary32.
Import Binary32 Scenario ScenarioX.
Local Open Scope scalar_scope.

Lemma SFltb_nan_l (v : float32) : SFltb S754_nan v = false.
Proof. destruct v; reflexivity. Qed.

Lemma SFltb_nan_r (v : float32) : SFltb v S754_nan = false.
Proof. destruct v as [s|s| |s m e]; try destruct s; reflexivity. Qed.

(** X7.  A NaN freezes the projectile: when its height, or the contact
    threshold, is NaN, both comparisons of [Update] fail, and the call
    neither integrates nor lands nor issues a spawner request. *)
Theorem nan_height_freezes (PIXEL_SCALE : float32)
    (LineIntersection : Vector2 float32 -> Vector2 float32 ->
                        Vector2 float32 -> Vector2 float32 -> Vector2 float32)
    (TICKS_PER_MS now : Z) (dt : float32) (c : CannonBall float32) :
  y (position (transform c)) = S754_nan
  \/ threshold PIXEL_SCALE c = S754_nan ->
  let u := Update PIXEL_SCALE LineIntersection TICKS_PER_MS now dt c in
  transform (fst u) = transform c
  /\ landed (fst u) = landed c
  /\ snd u = [].
Proof.
  intros H. cbv zeta.
  destruct (Update_incomparable PIXEL_SCALE LineIntersection TICKS_PER_MS
              now dt c) as (H1 & H2 & _ & _ & H5); auto;
    destruct H as [H|H]; rewrite H; cbn;
    auto using SFltb_nan_l, SFltb_nan_r.
Qed.

(** A cannonball constructed at a NaN height stays where it is. *)
Lemma nan_height_freezes_witness :
  y (position (transform nan_ball)) = S754_nan
  /\ transform (fst (Update32 (tick 1) frame nan_ball)) = transform nan_ball
  /\ landed (fst (Update32 (tick 1) frame nan_ball)) = landed nan_ball
  /\ snd (Update32 (tick 1) frame nan_ball) = [].
Proof.
  split; [reflexivity|].
  apply (nan_height_freezes Scenario.PIXEL_SCALE lineIntersection
           Scenario.TICKS_PER_MS (tick 1) frame nan_ball).
  left. reflexivity.
Defined.

(** The ball dropped from just above the plane is integrated on its first
    frame. *)
Lemma airborne_step_witness :
  transform (fst (Update32 (tick 1) frame dropped_ball))
  = Transform_Update frame (transform dropped_ball)
  /\ snd (Update32 (tick 1) frame dropped_ball) = [].
Proof.
  destruct (airborne_step Scenario.PIXEL_SCALE lineIntersection
              Scenario.TICKS_PER_MS (tick 1) frame dropped_ball)
    as (H1 & H2 & _).
  - vm_compute; reflexivity.
  - split; [exact H1 | exact H2].
Defined.

(** The glider on the plane is still there after the later frames. *)
Lemma frozen_on_plane_witness :
  transform (run32 later_frames glider_on_threshold)
  = transform glider_on_threshold.
Proof.
  refine (proj1 (frozen_on_plane Scenario.PIXEL_SCALE lineIntersection
                   Scenario.TICKS_PER_MS glider_on_threshold later_frames
                   _ _)); vm_compute; reflexivity.
Defined.

(** The fast ball and the same ball with a destruction requested bounce
    alike. *)
Lemma physics_ignores_the_fade_witness :
  physical (fst (Update32 (tick 1) frame fast_ball_under))
  = physical (fst (Update32 (tick 1) frame (Destroy fast_ball_under)))
  /\ snd (Update32 (tick 1) frame fast_ball_under)
     = snd (Update32 (tick 1) frame (Destroy fast_ball_under)).
Proof.
  apply (physics_ignores_the_fade Scenario.PIXEL_SCALE lineIntersection
           Scenario.TICKS_PER_MS (tick 1) frame fast_ball_under
           (Destroy fast_ball_under)).
  reflexivity.
Defined.

(** A ball that was never destroyed keeps its colour, and a ball whose
    fade has run out keeps the alpha the last frame left. *)
Lemma stopped_fade_stays_stopped_witness :
  color (run32 (steady_frames 8) bounced_ball) = color bounced_ball
  /\ color (run32 (steady_frames 8) (faded_ball 65)) = color (faded_ball 65).
Proof.
  split.
  - refine (proj1 (proj2 (stopped_fade_stays_stopped Scenario.PIXEL_SCALE
      lineIntersection Scenario.TICKS_PER_MS bounced_ball (steady_frames 8)
      _ _))); vm_compute; reflexivity.
  - refine (proj1 (proj2 (stopped_fade_stays_stopped Scenario.PIXEL_SCALE
      lineIntersection Scenario.TICKS_PER_MS (faded_ball 65) (steady_frames 8)
      _ _))); vm_compute; reflexivity.
Defined.

End MoreOnBinary32.

(** * The colours of the drawing, in exact arithmetic *)

Section MoreOverReals.

Import Exact.
Local Open Scope R_scope.

Variable PIXEL_SCALE : R.

Lemma to_uchar_in_range (v : R) :
  0 <= v <= 255 ->
  to_uchar v = Int_part v /\ (0 <= Int_part v <= 255)%Z.
Proof.
  intros Hv. destruct (base_Int_part v) as [Hl Hu].
  assert (H0 : (0 <= Int_part v)%Z).
  { apply Z.lt_succ_r. apply lt_IZR. rewrite succ_IZR. lra. }
  assert (H1 : (Int_part v <= 255)%Z) by (apply le_IZR; lra).
  split; [|lia].
  unfold to_uchar. cbn. unfold Rtrunc.
  destruct (Rle_dec 0 v); [|lra]. apply Z.mod_small. lia.
Qed.

(** *** The colour of the label and of the trajectory *)

Variable formatFixed2 : R -> String.string.
Variable MeasureText : String.string -> Z -> Z.
Variable GetAngle : Vector2 R -> R.
Variable radToDeg : R -> R.

Local Abbreviation Draw := (Draw PIXEL_SCALE formatFixed2 MeasureText).
Local Abbreviation DrawTrajectory := (DrawTrajectory GetAngle radToDeg).

Lemma Rtrunc_IZR (z : Z) : (0 <= z)%Z -> Rtrunc (IZR z) = z.
Proof.
  intros Hz. apply Rtrunc_floor; [now apply IZR_le | lra].
Qed.


End MoreOverReals.

(** * A concrete drawing in exact arithmetic *)

Module MoreOnReals.
Import Exact ScenarioR ScenarioXR.
Local Open Scope R_scope.


End MoreOnReals.

(** * Binary32: what rounding leaves of the numeric claims *)

(** ** Signs, NaNs and comparisons of binary32 operations *)

Module Binary32Facts.
Import Binary32 Binary32Obs.

(** *** Rounding keeps the sign and, on a mantissa that is not negative,
    never yields a NaN *)

Lemma round_sign (sx : bool) (mx ex : Z) (lx : location) :
  is_nan (binary_round_aux prec emax sx mx ex lx) = true
  \/ sign_bit (binary_round_aux prec emax sx mx ex lx) = sx.
Proof.
  unfold binary_round_aux.
  destruct (shr_fexp prec emax mx ex lx) as [mrs' e'].
  destruct (shr_fexp prec emax _ e' loc_Exact) as [mrs'' e''].
  destruct (shr_m mrs'') as [|m|m]; cbn; auto.
  destruct (e'' <=? 104)%Z; cbn; auto.
Qed.

Lemma shr_1_nonneg (mrs : shr_record) :
  (0 <= shr_m mrs)%Z -> (0 <= shr_m (shr_1 mrs))%Z.
Proof.
  destruct mrs as [m r s]. cbn. intros H.
  destruct m as [|p|p]; cbn; try lia; destruct p; cbn; lia.
Qed.

Lemma iter_shr_1_nonneg (p : positive) :
  forall mrs, (0 <= shr_m mrs)%Z -> (0 <= shr_m (iter_pos shr_1 p mrs))%Z.
Proof.
  induction p as [p IH|p IH|]; intros mrs H; cbn.
  - apply IH, IH, shr_1_nonneg, H.
  - apply IH, IH, H.
  - apply shr_1_nonneg, H.
Qed.

Lemma shr_fexp_nonneg (m e : Z) (l : location) :
  (0 <= m)%Z -> (0 <= shr_m (fst (shr_fexp prec emax m e l)))%Z.
Proof.
  intros H. unfold shr_fexp, shr.
  assert (H0 : (0 <= shr_m (shr_record_of_loc m l))%Z).
  { destruct l as [|[| |]]; cbn; exact H. }
  destruct (fexp prec emax (Zdigits2 m + e) - e)%Z; cbn; auto.
  now apply iter_shr_1_nonneg.
Qed.

Lemma round_nearest_even_nonneg (m : Z) (l : location) :
  (0 <= m)%Z -> (0 <= round_nearest_even m l)%Z.
Proof.
  intros H. destruct l as [|[| |]]; cbn; try lia.
  destruct (Z.even m); lia.
Qed.

Lemma round_not_nan (sx : bool) (mx ex : Z) (lx : location) :
  (0 <= mx)%Z -> is_nan (binary_round_aux prec emax sx mx ex lx) = false.
Proof.
  intros H. unfold binary_round_aux.
  pose proof (shr_fexp_nonneg mx ex lx H) as H1.
  destruct (shr_fexp prec emax mx ex lx) as [mrs' e']. cbn [fst] in H1.
  pose proof (shr_fexp_nonneg
                (round_nearest_even (shr_m mrs') (loc_of_shr_record mrs'))
                e' loc_Exact (round_nearest_even_nonneg _ _ H1)) as H2.
  destruct (shr_fexp prec emax _ e' loc_Exact) as [mrs'' e''].
  cbn [fst] in H2.
  destruct (shr_m mrs'') as [|m|m]; cbn; auto; [|lia].
  destruct (e'' <=? 104)%Z; reflexivity.
Qed.

Lemma normalize_not_nan (m e : Z) (szero : bool) :
  is_nan (binary_normalize prec emax m e szero) = false.
Proof.
  destruct m as [|p|p]; cbn; [reflexivity| |];
    unfold binary_round;
    destruct (shl_align p e _) as [mz ez]; apply round_not_nan; lia.
Qed.

Lemma normalize_sign_pos (p : positive) (e : Z) (szero : bool) :
  is_nan (binary_normalize prec emax (Zpos p) e szero) = false ->
  sign_bit (binary_normalize prec emax (Zpos p) e szero) = false.
Proof.
  cbn. unfold binary_round. destruct (shl_align p e _) as [mz ez].
  intros H. destruct (round_sign false (Zpos mz) ez loc_Exact) as [N|S];
    [congruence | exact S].
Qed.

(** *** Products and quotients: NaN propagates, the sign is the exclusive
    or of the signs *)

Lemma SFmul_sign (u v : float32) :
  is_nan (SFmul prec emax u v) = false ->
  is_nan u = false /\ is_nan v = false
  /\ sign_bit (SFmul prec emax u v) = xorb (sign_bit u) (sign_bit v).
Proof.
  destruct u as [su|su| |su mu eu], v as [sv|sv| |sv mv ev]; cbn;
    intros H; try discriminate; auto.
  destruct (round_sign (xorb su sv) (Zpos (mu * mv)) (eu + ev) loc_Exact)
    as [N|S]; [congruence | auto].
Qed.

Lemma SFdiv_sign (u v : float32) :
  is_nan (SFdiv prec emax u v) = false ->
  is_nan u = false /\ is_nan v = false
  /\ sign_bit (SFdiv prec emax u v) = xorb (sign_bit u) (sign_bit v).
Proof.
  destruct u as [su|su| |su mu eu], v as [sv|sv| |sv mv ev]; cbn;
    intros H; try discriminate; auto.
  destruct (SFdiv_core_binary prec emax (Zpos mu) eu (Zpos mv) ev)
    as [[mz ez] lz].
  destruct (round_sign (xorb su sv) mz ez lz) as [N|S]; [congruence | auto].
Qed.

Lemma SFmul_zero_l (u v : float32) :
  is_zero u = true -> is_nan (SFmul prec emax u v) = false ->
  is_zero (SFmul prec emax u v) = true.
Proof.
  destruct u as [su|su| |su mu eu], v as [sv|sv| |sv mv ev]; cbn;
    intros H1 H2; try discriminate; reflexivity.
Qed.

(** *** Sums and square roots of numbers whose sign bit is clear *)

Lemma SFadd_nan (u v : float32) :
  is_nan (SFadd prec emax u v) = false ->
  is_nan u = false /\ is_nan v = false.
Proof.
  destruct u as [su|su| |su mu eu], v as [sv|sv| |sv mv ev]; cbn;
    intros H; try discriminate; auto.
Qed.

Lemma SFadd_sign_clear (u v : float32) :
  sign_bit u = false -> sign_bit v = false ->
  is_nan (SFadd prec emax u v) = false ->
  sign_bit (SFadd prec emax u v) = false.
Proof.
  destruct u as [su|su| |su mu eu], v as [sv|sv| |sv mv ev];
    cbn -[binary_normalize];
    intros Hu Hv H; subst; try discriminate; try reflexivity.
  revert H. cbn -[binary_normalize]. apply normalize_sign_pos.
Qed.

Lemma SFsqrt_sign_clear (u : float32) :
  sign_bit u = false -> is_nan (SFsqrt prec emax u) = false ->
  is_nan u = false /\ sign_bit (SFsqrt prec emax u) = false.
Proof.
  destruct u as [su|su| |su mu eu]; cbn; intros Hu H; subst;
    try discriminate; auto.
  destruct (SFsqrt_core_binary prec emax (Zpos mu) eu) as [[mz ez] lz].
  destruct (round_sign false mz ez lz) as [N|S]; [congruence | auto].
Qed.

(** *** Sums and differences of a finite number and a number *)

Lemma SFadd_not_nan (u v : float32) :
  is_finite u = true -> is_nan v = false ->
  is_nan (SFadd prec emax u v) = false.
Proof.
  destruct u as [su|su| |su mu eu], v as [sv|sv| |sv mv ev];
    cbn -[binary_normalize];
    intros Hu Hv; try discriminate; try reflexivity.
  - destruct su, sv; reflexivity.
  - apply normalize_not_nan.
Qed.

Lemma SFsub_not_nan (u v : float32) :
  is_finite u = true -> is_nan v = false ->
  is_nan (SFsub prec emax u v) = false.
Proof.
  destruct u as [su|su| |su mu eu], v as [sv|sv| |sv mv ev];
    cbn -[binary_normalize];
    intros Hu Hv; try discriminate; try reflexivity.
  - destruct su, sv; reflexivity.
  - apply normalize_not_nan.
Qed.

(** *** Comparisons *)

Lemma SFcompare_defined (u v : float32) :
  is_nan u = false -> is_nan v = false ->
  exists k, SFcompare u v = Some k.
Proof.
  destruct u as [su|su| |su mu eu], v as [sv|sv| |sv mv ev]; cbn;
    intros Hu Hv; try discriminate; eauto.
Qed.

Lemma SFltb_false_SFleb (u v : float32) :
  is_nan u = false -> is_nan v = false ->
  SFltb u v = false -> SFleb v u = true.
Proof.
  intros Hu Hv. unfold SFltb, SFleb.
  rewrite (SFcompare_antisym u v).
  destruct (SFcompare_defined u v Hu Hv) as [k ->]. cbn.
  destruct k; cbn; congruence.
Qed.

Lemma in_unit_finite (u : float32) : in_unit u = true -> is_finite u = true.
Proof.
  destruct u as [su|[|]| |su mu eu]; try reflexivity; vm_compute;
    discriminate.
Qed.

Lemma SFsqrt_nan (u : float32) :
  is_nan (SFsqrt prec emax u) = false -> is_nan u = false.
Proof. destruct u; cbn; auto. Qed.

Lemma SFltb_zero_sign (u : float32) :
  SFltb (of_Z 0) u = true -> sign_bit u = false /\ is_zero u = false.
Proof.
  destruct u as [su|[|]| |[|] mu eu]; vm_compute; intros H;
    try discriminate; auto.
Qed.

(** *** The functions of the Maths library *)

Lemma GetLength_sign (v : Vector2 float32) :
  is_nan (GetLength v) = false -> sign_bit (GetLength v) = false.
Proof.
  unfold GetLength. intros H.
  pose proof (SFsqrt_nan _ H) as Hs.
  destruct (SFadd_nan _ _ Hs) as [Hx Hy].
  destruct (SFmul_sign _ _ Hx) as (_ & _ & Sx).
  destruct (SFmul_sign _ _ Hy) as (_ & _ & Sy).
  rewrite xorb_nilpotent in Sx, Sy.
  pose proof (SFadd_sign_clear _ _ Sx Sy Hs) as Sa.
  exact (proj2 (SFsqrt_sign_clear _ Sa H)).
Qed.

Lemma clamp_in_unit (v : float32) :
  is_nan v = false -> in_unit (clamp v (lit 0) (lit 1)) = true.
Proof.
  intros Hv. unfold clamp.
  destruct (s_ltb v (lit 0)) eqn:H0; [reflexivity|].
  destruct (s_ltb (lit 1) v) eqn:H1; [reflexivity|].
  unfold in_unit. apply andb_true_intro. split.
  - apply (SFltb_false_SFleb v (of_Z 0) Hv eq_refl H0).
  - apply (SFltb_false_SFleb (of_Z 1) v eq_refl Hv H1).
Qed.

End Binary32Facts.

(** * After a bounce, and the air time: for every [Scalar] *)

Section EveryArithmetic.

Context {T : Type} {ST : Scalar T}.
Variable PIXEL_SCALE : T.
Variable LineIntersection :
  Vector2 T -> Vector2 T -> Vector2 T -> Vector2 T -> Vector2 T.
Variable TICKS_PER_MS : Z.
Local Open Scope scalar_scope.

Local Abbreviation Update := (Update PIXEL_SCALE LineIntersection TICKS_PER_MS).
Local Abbreviation UpdateTrajectory :=
  (UpdateTrajectory LineIntersection TICKS_PER_MS).
Local Abbreviation threshold := (threshold PIXEL_SCALE).
Local Abbreviation apply_op :=
  (apply_op PIXEL_SCALE LineIntersection TICKS_PER_MS).
Local Abbreviation trace := (trace PIXEL_SCALE LineIntersection TICKS_PER_MS).

Lemma trace_cons (o : Op T) (ops : list (Op T)) (c : CannonBall T) :
  trace (o :: ops) c = c :: trace ops (apply_op o c).
Proof. reflexivity. Qed.

(** X9.  After an [Update] call that takes the bounce branch, the ball is
    at the height [threshold - 0.01f].  When that height is strictly less
    than the threshold (the subtraction did not round back to the
    threshold), the next [Update] call, whatever its [deltaTime], takes the
    airborne branch: it integrates the transform and issues no spawner
    request. *)
Theorem bounce_leaves_the_ground (now : Z) (dt : T) (c : CannonBall T) :
  (y (position (transform c)) >? threshold c) = true ->
  (GetLength (velocity (transform c)) >? lit 10) = true ->
  (threshold c - dec 1 100 <? threshold c) = true ->
  let c' := fst (Update now dt c) in
  y (position (transform c')) = threshold c - dec 1 100
  /\ (y (position (transform c')) <? threshold c') = true
  /\ forall now' dt',
       transform (fst (Update now' dt' c'))
       = Transform_Update dt' (transform c')
       /\ snd (Update now' dt' c') = [].
Proof.
  intros Hy Hv Hgap. cbv zeta.
  assert (Hpos : y (position (transform (fst (Update now dt c))))
                 = threshold c - dec 1 100).
  { rewrite (Update_under_transform PIXEL_SCALE LineIntersection TICKS_PER_MS
               now dt c Hy), Hv.
    reflexivity. }
  assert (Hthr : threshold (fst (Update now dt c)) = threshold c)
    by apply Update_keeps_threshold.
  assert (Hup : (y (position (transform (fst (Update now dt c))))
                 <? threshold (fst (Update now dt c))) = true)
    by (rewrite Hpos, Hthr; exact Hgap).
  split; [exact Hpos|]. split; [exact Hup|].
  intros now' dt'.
  exact (Update_airborne PIXEL_SCALE LineIntersection TICKS_PER_MS
           now' dt' _ Hup).
Qed.

(** X12.  With a positive number of clock ticks per millisecond and a clock
    reading not earlier than [startTime], [UpdateTrajectory] sets [endTime]
    to the clock reading and [airTime] to [ms / 1000.f], where the integer
    [ms] is the elapsed time in whole milliseconds, rounded down; [endPos]
    and [endV] are the current position and velocity. *)
Theorem airTime_is_whole_milliseconds (now : Z) (c : CannonBall T) :
  (0 < TICKS_PER_MS)%Z -> (startTime c <= now)%Z ->
  let c' := UpdateTrajectory now c in
  exists ms : Z,
    endTime c' = now
    /\ airTime c' = s_of_Z ms / lit 1000
    /\ (0 <= ms)%Z
    /\ (TICKS_PER_MS * ms <= now - startTime c < TICKS_PER_MS * (ms + 1))%Z
    /\ endPos c' = position (transform c)
    /\ endV c' = velocity (transform c).
Proof.
  intros Hticks Hnow. cbv zeta.
  exists (Z.quot (now - startTime c) TICKS_PER_MS).
  assert (Hq : Z.quot (now - startTime c) TICKS_PER_MS
               = ((now - startTime c) / TICKS_PER_MS)%Z)
    by (apply Z.quot_div_nonneg; lia).
  split; [reflexivity|]. split; [reflexivity|].
  rewrite Hq. split; [apply Z.div_pos; lia|].
  split; [|split; reflexivity].
  split.
  - apply Z.mul_div_le; exact Hticks.
  - rewrite Z.add_1_r. apply Z.mul_succ_div_gt; exact Hticks.
Qed.

End EveryArithmetic.


(** ** The bounce, the trajectory fade and the drag on binary32 *)

Section Rounded.

Import Binary32 Binary32Obs Binary32Facts.
Local Open Scope scalar_scope.

Variable PIXEL_SCALE AIR_DENSITY SPHERE_DRAG_COEFF : float32.
Variable LineIntersection :
  Vector2 float32 -> Vector2 float32 -> Vector2 float32 -> Vector2 float32
  -> Vector2 float32.
Variable TICKS_PER_MS : Z.

Local Abbreviation Update := (Update PIXEL_SCALE LineIntersection TICKS_PER_MS).
Local Abbreviation threshold := (threshold PIXEL_SCALE).
Local Abbreviation trace := (trace PIXEL_SCALE LineIntersection TICKS_PER_MS).
Local Abbreviation apply_op :=
  (apply_op PIXEL_SCALE LineIntersection TICKS_PER_MS).
Local Abbreviation ComputeDrag := (ComputeDrag AIR_DENSITY SPHERE_DRAG_COEFF).

(** Write the operations of the [Scalar] interface as the binary32
    operations they are. *)
Ltac as_binary32 :=
  unfold s_opp, sqpow in *;
  cbn [s_mul s_div s_add s_sub s_sqrt s_PI float32_scalar] in *.

(** *** The bounce *)

(** The sign of a component [u] of the flipped velocity after
    [SetLength]: the length [len] divides and multiplies, so its sign
    cancels. *)
Lemma SetLength_component_sign (u len e : float32) :
  sign_bit e = false ->
  is_nan (u / len * (len * e)) = false ->
  sign_bit (u / len * (len * e)) = sign_bit u.
Proof.
  intros He H. as_binary32.
  destruct (SFmul_sign _ _ H) as (H1 & H2 & S).
  destruct (SFdiv_sign _ _ H1) as (_ & _ & S1).
  destruct (SFmul_sign _ _ H2) as (_ & _ & S2).
  rewrite S, S1, S2, He.
  destruct (sign_bit u), (sign_bit len); reflexivity.
Qed.

Lemma flip_sign (u : float32) :
  is_nan (u * lit (-1)) = false ->
  sign_bit (u * lit (-1)) = negb (sign_bit u).
Proof.
  intros H. as_binary32. destruct (SFmul_sign _ _ H) as (_ & _ & S).
  rewrite S. destruct (sign_bit u); reflexivity.
Qed.


(** *** The trajectory fade *)

Lemma fadeTrajectory_in_unit (dt : float32) (c : CannonBall float32) :
  in_unit (trajectoryAlpha c) = true -> is_nan dt = false ->
  in_unit (trajectoryAlpha (fadeTrajectory dt c)) = true.
Proof.
  intros Hc Hdt. pose proof (in_unit_finite _ Hc) as Hf.
  unfold fadeTrajectory.
  destruct (showTrajectory c && s_ltb (trajectoryAlpha c) (lit 1)).
  - destruct c; cbn. apply clamp_in_unit, SFadd_not_nan; assumption.
  - destruct (negb (showTrajectory c) && s_ltb (lit 0) (trajectoryAlpha c)).
    + destruct c; cbn. apply clamp_in_unit, SFsub_not_nan; assumption.
    + exact Hc.
Qed.

Lemma apply_op_in_unit (o : Op float32) (c : CannonBall float32) :
  in_unit (trajectoryAlpha c) = true -> dt_defined o = true ->
  in_unit (trajectoryAlpha (apply_op o c)) = true.
Proof.
  intros Hc Ho. destruct o; cbn.
  - rewrite Update_trajectoryAlpha. apply fadeTrajectory_in_unit; [exact Hc|].
    cbn in Ho. now apply negb_true_iff in Ho.
  - destruct c; exact Hc.
  - destruct c; exact Hc.
  - destruct c; exact Hc.
Qed.

(** Claim C7, on binary32: for every sequence of calls whose [deltaTime]
    values are numbers (none is NaN), however [showTrajectory] is toggled
    between frames, a [trajectoryAlpha] that starts within [0, 1] stays
    within [0, 1]; one [Update] sets it to [trajectoryAlpha + deltaTime]
    clamped to [0, 1] when [showTrajectory] is true and the alpha is under
    1, to [trajectoryAlpha - deltaTime] clamped to [0, 1] when
    [showTrajectory] is false and the alpha is over 0, the sum and the
    difference rounded, and leaves it alone otherwise. *)
Theorem trajectoryAlpha_stays_in_unit_interval_binary32
    (c : CannonBall float32) (ops : list (Op float32)) :
  in_unit (trajectoryAlpha c) = true ->
  forallb dt_defined ops = true ->
  forallb (fun s => in_unit (trajectoryAlpha s)) (trace ops c) = true
  /\ (forall now dt,
        trajectoryAlpha (fst (Update now dt c)) =
        if showTrajectory c && (trajectoryAlpha c <? lit 1)
        then clamp (trajectoryAlpha c + dt) (lit 0) (lit 1)
        else if negb (showTrajectory c) && (trajectoryAlpha c >? lit 0)
        then clamp (trajectoryAlpha c - dt) (lit 0) (lit 1)
        else trajectoryAlpha c).
Proof.
  intros Hc Hops. split.
  - revert c Hc Hops. induction ops as [|o ops IH]; intros c Hc Hops.
    + cbn. rewrite Hc. reflexivity.
    + cbn [forallb] in Hops. apply andb_true_iff in Hops as [Ho Hops].
      rewrite trace_cons. cbn [forallb]. rewrite Hc. cbn [andb].
      apply IH; [|exact Hops]. now apply apply_op_in_unit.
  - intros now dt. rewrite Update_trajectoryAlpha. unfold fadeTrajectory.
    destruct (showTrajectory c && (trajectoryAlpha c <? lit 1));
      [destruct c; reflexivity|].
    destruct (negb (showTrajectory c) && (trajectoryAlpha c >? lit 0));
      destruct c; reflexivity.
Qed.

(** *** The drag *)

Lemma dragCoeff_sign (rad : float32) :
  sign_bit AIR_DENSITY = false -> sign_bit SPHERE_DRAG_COEFF = false ->
  is_nan (dec 1 2 * AIR_DENSITY * SPHERE_DRAG_COEFF * s_PI * sqpow rad)
  = false ->
  sign_bit (dec 1 2 * AIR_DENSITY * SPHERE_DRAG_COEFF * s_PI * sqpow rad)
  = false.
Proof.
  intros Ha Hs H. as_binary32.
  destruct (SFmul_sign _ _ H) as (H1 & H2 & S).
  destruct (SFmul_sign _ _ H1) as (H3 & _ & S1).
  destruct (SFmul_sign _ _ H3) as (H4 & _ & S3).
  destruct (SFmul_sign _ _ H4) as (_ & _ & S4).
  destruct (SFmul_sign _ _ H2) as (_ & _ & S2).
  rewrite S, S1, S3, S4, S2, Ha, Hs.
  destruct (sign_bit rad); reflexivity.
Qed.

(** A component [u] of the velocity, times the speed, times the negated
    drag coefficient: the sign bit is the opposite of that of [u]. *)
Lemma drag_component_sign (v : Vector2 float32) (rad u : float32) :
  sign_bit AIR_DENSITY = false -> sign_bit SPHERE_DRAG_COEFF = false ->
  is_nan (u * GetLength v
          * s_opp (dec 1 2 * AIR_DENSITY * SPHERE_DRAG_COEFF * s_PI
                   * sqpow rad)) = false ->
  sign_bit (u * GetLength v
            * s_opp (dec 1 2 * AIR_DENSITY * SPHERE_DRAG_COEFF * s_PI
                     * sqpow rad)) = negb (sign_bit u).
Proof.
  intros Ha Hs H.
  pose proof (dragCoeff_sign rad Ha Hs) as Hc. as_binary32.
  destruct (SFmul_sign _ _ H) as (H1 & H2 & S).
  destruct (SFmul_sign _ _ H1) as (_ & HL & S1).
  destruct (SFmul_sign _ _ H2) as (_ & Hk & S2).
  rewrite S, S1, S2, (GetLength_sign v HL), (Hc Hk).
  destruct (sign_bit u); reflexivity.
Qed.

Lemma drag_component_zero (u len k : float32) :
  is_zero u = true -> is_nan (u * len * k) = false ->
  is_zero (u * len * k) = true.
Proof.
  intros Hu H. as_binary32. destruct (SFmul_sign _ _ H) as (H1 & _).
  apply SFmul_zero_l; [|exact H].
  apply SFmul_zero_l; [exact Hu | exact H1].
Qed.

(** Claim C9, on binary32: [ComputeDrag] returns the velocity times its
    length times the negated coefficient
    [0.5 * AIR_DENSITY * SPHERE_DRAG_COEFF * PI * radius^2], every product
    rounded, and no new state.  For a velocity whose components are zeros
    it returns zeros; for a velocity (v, 0) with [v > 0], and an air
    density and a drag coefficient whose sign bits are clear, the x
    component has its sign bit set (it is negative or, when the product
    underflows, minus zero) and the y component is a zero; each unless the
    component comes out as NaN. *)
Theorem ComputeDrag_on_binary32 (c : CannonBall float32) :
  let v := velocity (transform c) in
  let k :=
    dec 1 2 * AIR_DENSITY * SPHERE_DRAG_COEFF * s_PI * sqpow (radius c) in
  let d := ComputeDrag c in
  d = Vscale (Vscale v (GetLength v)) (s_opp k)
  /\ (is_zero (x v) = true -> is_zero (y v) = true ->
      (is_nan (x d) = false -> is_zero (x d) = true)
      /\ (is_nan (y d) = false -> is_zero (y d) = true))
  /\ (sign_bit AIR_DENSITY = false -> sign_bit SPHERE_DRAG_COEFF = false ->
      (x v >? lit 0) = true -> is_zero (y v) = true ->
      (is_nan (x d) = false -> sign_bit (x d) = true)
      /\ (is_nan (y d) = false -> is_zero (y d) = true)).
Proof.
  cbv zeta. split; [reflexivity|]. split.
  - intros Hx Hy. split; intros Hn.
    + exact (drag_component_zero _ _ _ Hx Hn).
    + exact (drag_component_zero _ _ _ Hy Hn).
  - intros Ha Hs Hx Hy. split; intros Hn.
    + unfold ComputeDrag, Vscale. cbn [x y].
      rewrite (drag_component_sign _ _ _ Ha Hs Hn).
      destruct (SFltb_zero_sign _ Hx) as [-> _]. reflexivity.
    + exact (drag_component_zero _ _ _ Hy Hn).
Qed.

(** X11.  With an air density and a drag coefficient whose sign bits are
    clear, each component of the drag has the sign bit opposite to that of
    the same component of the velocity, unless it comes out as NaN: the
    drag never points along the motion. *)
Theorem drag_opposes_velocity (c : CannonBall float32) :
  sign_bit AIR_DENSITY = false -> sign_bit SPHERE_DRAG_COEFF = false ->
  let v := velocity (transform c) in
  let d := ComputeDrag c in
  (is_nan (x d) = false -> sign_bit (x d) = negb (sign_bit (x v)))
  /\ (is_nan (y d) = false -> sign_bit (y d) = negb (sign_bit (y v))).
Proof.
  intros Ha Hs. cbv zeta. split; intros Hn.
  - exact (drag_component_sign _ _ _ Ha Hs Hn).
  - exact (drag_component_sign _ _ _ Ha Hs Hn).
Qed.

End Rounded.


(** ** Concrete runs that rounding decides *)

Module RoundedRuns.
Import Binary32 Binary32Obs Scenario ScenarioF.
Local Open Scope scalar_scope.

(** Claim C1 at a failing input: a cannonball in flight, one unit above
    the contact plane and falling at 62.46875 units per second.  The first
    frame of 1/64 s integrates it to the contact plane exactly
    ([position.y = 99 = groundHeight - radius*scale]) with velocity 64.
    From then on every [Update] finds it at the threshold, and neither
    [<] nor [>] holds: [landed] stays false, the snapshot is not frozen,
    neither the bounce nor the rest branch runs and no burst is requested.
    The ball hangs on the plane, velocity 64 and gravity still in its
    transform, for as long as it is updated. *)
Lemma landing_missed_on_arrival :
  landed grazing_ball = false
  /\ (y (position (transform grazing_ball))
        <? threshold PIXEL_SCALE grazing_ball) = true
  /\ y (position (transform hanging_ball)) = threshold PIXEL_SCALE hanging_ball
  /\ (threshold PIXEL_SCALE hanging_ball
        <=? y (position (transform hanging_ball))) = true
  /\ velocity (transform hanging_ball) = mkVector2 (of_Z 0) (of_Z 64)
  /\ landed hanging_ball = false
  /\ landed (fst (Update32 (tick 2) frame hanging_ball)) = false
  /\ transform (fst (Update32 (tick 2) frame hanging_ball))
     = transform hanging_ball
  /\ snd (Update32 (tick 2) frame hanging_ball) = []
  /\ ~ landing_ran PIXEL_SCALE lineIntersection TICKS_PER_MS (tick 2)
         hanging_ball (fst (Update32 (tick 2) frame hanging_ball))
  /\ landed (run32 (steady_frames 64) hanging_ball) = false
  /\ transform (run32 (steady_frames 64) hanging_ball)
     = transform hanging_ball.
Proof.
  repeat split; try (vm_compute; reflexivity).
  intros [H _]. vm_compute in H. discriminate.
Qed.

(** Claim C4 at a failing input: a cannonball in flight, an eighth of a
    unit above the contact plane and falling at 6.46875 units per second.
    The first frame of 1/64 s integrates it to the contact plane exactly
    with velocity 8.  The next [Update] finds it at the threshold with a
    speed of 8, at most 10, and does not put it to rest: the velocity is
    still (0, 8) and the acceleration still gravity, after that call and
    after 64 more. *)
Lemma rest_missed_on_arrival :
  (y (position (transform slow_grazing_ball))
     <? threshold PIXEL_SCALE slow_grazing_ball) = true
  /\ y (position (transform slow_hanging_ball))
     = threshold PIXEL_SCALE slow_hanging_ball
  /\ (threshold PIXEL_SCALE slow_hanging_ball
        <=? y (position (transform slow_hanging_ball))) = true
  /\ GetLength (velocity (transform slow_hanging_ball)) = of_Z 8
  /\ (GetLength (velocity (transform slow_hanging_ball)) <=? lit 10) = true
  /\ velocity (transform (fst (Update32 (tick 2) frame slow_hanging_ball)))
     = mkVector2 (of_Z 0) (of_Z 8)
  /\ velocity (transform (fst (Update32 (tick 2) frame slow_hanging_ball)))
     <> Vzero
  /\ acceleration (transform (fst (Update32 (tick 2) frame slow_hanging_ball)))
     = mkVector2 (of_Z 0) GRAVITY
  /\ acceleration (transform (fst (Update32 (tick 2) frame slow_hanging_ball)))
     <> Vzero
  /\ transform (run32 (steady_frames 64) slow_hanging_ball)
     = transform slow_hanging_ball.
Proof.
  repeat split; try (vm_compute; reflexivity);
    intros H; vm_compute in H; discriminate.
Qed.



(** Claim C7 as stated fails on binary32: the trajectory is shown, the
    alpha is 0.5, under 1, the frame lasts 2^-26 s, more than nothing, and
    the call leaves the alpha where it was: 0.5 + 2^-26 rounds to 0.5. *)
Lemma fade_step_is_absorbed :
  showTrajectory half_shown_ball = true
  /\ trajectoryAlpha half_shown_ball = dec 1 2
  /\ (sliver >? lit 0) = true
  /\ trajectoryAlpha (fst (Update32 (tick 2) sliver half_shown_ball))
     = trajectoryAlpha half_shown_ball
  /\ (trajectoryAlpha (fst (Update32 (tick 2) sliver half_shown_ball))
        >? trajectoryAlpha half_shown_ball) = false.
Proof. repeat split; vm_compute; reflexivity. Qed.

(** The alpha of a ball whose trajectory display is toggled stays within
    [0, 1]. *)
Lemma trajectoryAlpha_stays_in_unit_interval_binary32_witness :
  in_unit (trajectoryAlpha still_ball) = true
  /\ forallb dt_defined toggling_frames = true
  /\ forallb (fun s => in_unit (trajectoryAlpha s))
       (trace PIXEL_SCALE lineIntersection TICKS_PER_MS toggling_frames
              still_ball) = true.
Proof.
  split; [vm_compute; reflexivity|].
  split; [vm_compute; reflexivity|].
  refine (proj1 (trajectoryAlpha_stays_in_unit_interval_binary32 PIXEL_SCALE
                   lineIntersection TICKS_PER_MS still_ball toggling_frames
                   _ _));
    vm_compute; reflexivity.
Defined.

(** Claim C9 as stated fails on binary32: at the velocity (2^-80, 0),
    along +x, the product of the velocity and its length underflows and
    the drag is (-0, -0), which points nowhere and is not less than zero;
    at the velocity (2^100, 0) the length overflows and the drag is
    (-infinity, NaN). *)
Lemma drag_underflows_and_overflows :
  (x (velocity (transform creeping_ball)) >? lit 0) = true
  /\ y (velocity (transform creeping_ball)) = lit 0
  /\ ComputeDrag AIR_DENSITY SPHERE_DRAG_COEFF creeping_ball
     = mkVector2 (S754_zero true) (S754_zero true)
  /\ (x (ComputeDrag AIR_DENSITY SPHERE_DRAG_COEFF creeping_ball) <? lit 0)
     = false
  /\ (x (velocity (transform racing_ball)) >? lit 0) = true
  /\ y (velocity (transform racing_ball)) = lit 0
  /\ ComputeDrag AIR_DENSITY SPHERE_DRAG_COEFF racing_ball
     = mkVector2 (S754_infinity true) S754_nan.
Proof. repeat split; vm_compute; reflexivity. Qed.

(** The drag on the cruising ball, which moves along +x at 2 units per
    second, has its sign bit set in x and is a zero in y; the drag on the
    still ball is made of zeros. *)
Lemma ComputeDrag_on_binary32_witness :
  sign_bit (x (ComputeDrag AIR_DENSITY SPHERE_DRAG_COEFF cruising_ball))
  = true
  /\ is_zero (y (ComputeDrag AIR_DENSITY SPHERE_DRAG_COEFF cruising_ball))
     = true.
Proof.
  destruct (proj2 (proj2
    (ComputeDrag_on_binary32 AIR_DENSITY SPHERE_DRAG_COEFF cruising_ball)))
    as [Hx Hy]; try (vm_compute; reflexivity).
  split; [apply Hx | apply Hy]; vm_compute; reflexivity.
Defined.

(** The drag on the ball moving at (3, -4) points along -x and +y. *)
Lemma drag_opposes_velocity_witness :
  sign_bit (x (ComputeDrag AIR_DENSITY SPHERE_DRAG_COEFF slanted_ball)) = true
  /\ sign_bit (y (ComputeDrag AIR_DENSITY SPHERE_DRAG_COEFF slanted_ball))
     = false.
Proof.
  destruct (drag_opposes_velocity AIR_DENSITY SPHERE_DRAG_COEFF slanted_ball)
    as [Hx Hy]; try (vm_compute; reflexivity).
  split; [apply Hx | apply Hy]; vm_compute; reflexivity.
Defined.

(** The fast ball bounces to 0.01 above the contact plane, and its next
    frame is an airborne one. *)
Lemma bounce_leaves_the_ground_witness :
  (y (position (transform bounced_ball))
     <? threshold PIXEL_SCALE bounced_ball) = true
  /\ snd (Update32 (tick 2) frame bounced_ball) = [].
Proof.
  destruct (bounce_leaves_the_ground PIXEL_SCALE lineIntersection
              TICKS_PER_MS (tick 1) frame fast_ball_under)
    as (_ & Hup & Hnext); try (vm_compute; reflexivity).
  split; [exact Hup | exact (proj2 (Hnext (tick 2) frame))].
Defined.

(** Where the spacing of binary32 numbers exceeds 0.02 the subtraction
    rounds back: a ball bouncing on a contact plane at height 262145 is
    put on the plane itself, and the next frame leaves it there. *)
Example bounce_onto_the_threshold :
  let c := deep_ball_under in
  let c' := fst (Update32 (tick 1) frame c) in
  (threshold PIXEL_SCALE c - dec 1 100 <? threshold PIXEL_SCALE c) = false
  /\ (GetLength (velocity (transform c)) >? lit 10) = true
  /\ y (position (transform c')) = threshold PIXEL_SCALE c'
  /\ transform (fst (Update32 (tick 2) frame c')) = transform c'.
Proof. repeat split; vm_compute; reflexivity. Qed.

(** Two and a half milliseconds after the launch the air time is
    [2 / 1000.f]. *)
Lemma airTime_is_whole_milliseconds_witness :
  exists ms : Z,
    endTime (UpdateTrajectory lineIntersection TICKS_PER_MS 2500000
               still_ball) = 2500000%Z
    /\ airTime (UpdateTrajectory lineIntersection TICKS_PER_MS 2500000
                  still_ball) = s_of_Z ms / lit 1000
    /\ (0 <= ms)%Z
    /\ (TICKS_PER_MS * ms <= 2500000 - startTime still_ball
        < TICKS_PER_MS * (ms + 1))%Z.
Proof.
  destruct (airTime_is_whole_milliseconds lineIntersection TICKS_PER_MS
              2500000 still_ball) as (ms & H1 & H2 & H3 & H4 & _).
  - reflexivity.
  - vm_compute. discriminate.
  - exists ms. repeat split; try assumption; apply H4.
Defined.

Example airTime_of_two_milliseconds :
  airTime (UpdateTrajectory lineIntersection TICKS_PER_MS 2500000 still_ball)
  = dec 2 1000.
Proof. vm_compute; reflexivity. Qed.

(** A cannonball at x = 3e9: the circle is drawn at [INT_MIN], not at
    3000000000. *)
Example Draw_beyond_the_int_range :
  map (fun d => match d with
                | CmdCircle cx cy _ _ => (cx, cy)
                | _ => (0, 0)%Z
                end)
      (firstn 1 (Draw PIXEL_SCALE blank_format zero_width far_ball))
  = [(INT_MIN, 0%Z)].
Proof. vm_compute; reflexivity. Qed.

End RoundedRuns.
